(** * mindtrace: dashboard statistics, mood-column migration, removal audit

    A shallow embedding of three Python units of the server:

    - [app/routes/statsRoutes.py]      (module [Stats]),
    - [migrations/remove_mood_column.py] (module [Migration]),
    - [verify_mood_removal.py]         (module [Verify]),

    followed by the properties of each. *)

From Stdlib Require Import ZArith Ascii String Lia Sorted.
From stdpp Require Import base decidable option list strings pretty gmap.

Local Open Scope Z_scope.

#[local] Set Warnings "-clear-no-such-hyp".

(* ===================================================================== *)
(** * Python values shared by the three units                            *)
(* ===================================================================== *)

Module Py.

(** The outcome of a call: a value, or a raised exception carrying its
    message. *)
Inductive result (A : Type) : Type :=
| Ok (a : A)
| Raise (e : string).
Arguments Ok {A} a.
Arguments Raise {A} e.

(** [x or 0] on an optional integer: [None] and [0] are falsy. *)
Definition or_zero (x : option Z) : Z :=
  match x with
  | Some n => if n =? 0 then 0 else n
  | None => 0
  end.

(** A dict literal with string keys keeps insertion order. *)
Definition dict (V : Type) : Type := list (string * V).

Fixpoint dict_get {V} (k : string) (d : dict V) : option V :=
  match d with
  | [] => None
  | (k', v) :: d' => if String.eqb k k' then Some v else dict_get k d'
  end.

Definition dict_keys {V} (d : dict V) : list string := d.*1.

(** ** Strings

    A [str] is modelled as a [string] of code points below 256. *)

Definition code (c : ascii) : N := N_of_ascii c.

(** [str.lower] on one code point: [A-Z], and the Latin-1 capitals
    0xC0-0xDE except the multiplication sign 0xD7. *)
Definition lower_char (c : ascii) : ascii :=
  let n := code c in
  if ((65 <=? n) && (n <=? 90))%N
     || ((192 <=? n) && (n <=? 222) && negb (n =? 215))%N
  then ascii_of_N (n + 32)
  else c.

Fixpoint lower (s : string) : string :=
  match s with
  | EmptyString => EmptyString
  | String c s' => String (lower_char c) (lower s')
  end.

(** [str.isspace] on one code point. *)
Definition is_space (c : ascii) : bool :=
  let n := code c in
  (((9 <=? n) && (n <=? 13)) || ((28 <=? n) && (n <=? 32))
   || (n =? 133) || (n =? 160))%N.

Fixpoint lstrip (s : string) : string :=
  match s with
  | EmptyString => EmptyString
  | String c s' => if is_space c then lstrip s' else s
  end.

(** The trailing white space is dropped from the right end inwards. *)
Fixpoint rstrip (s : string) : string :=
  match s with
  | EmptyString => EmptyString
  | String c s' =>
      match rstrip s' with
      | EmptyString => if is_space c then EmptyString else String c EmptyString
      | t => String c t
      end
  end.

Definition strip (s : string) : string := rstrip (lstrip s).

(** [s.startswith(p)] *)
Definition startswith (p s : string) : bool := String.prefix p s.

(** [needle in hay] *)
Fixpoint contains (needle hay : string) : bool :=
  String.prefix needle hay
  || match hay with
     | EmptyString => false
     | String _ hay' => contains needle hay'
     end.

(** [s.split(sep)] for a one-character separator: never empty, one more
    piece than there are separators. *)
Fixpoint split_acc (sep : ascii) (cur : string) (s : string) : list string :=
  match s with
  | EmptyString => [String.rev cur]
  | String c s' =>
      if Ascii.eqb c sep
      then String.rev cur :: split_acc sep EmptyString s'
      else split_acc sep (String c cur) s'
  end.

Definition split (sep : ascii) (s : string) : list string :=
  split_acc sep EmptyString s.

(** [s[:n]] *)
Definition str_take (n : nat) (s : string) : string := String.substring 0 n s.

(** [x in l] for a list of strings *)
Definition str_in (x : string) (l : list string) : bool :=
  existsb (String.eqb x) l.

(** ** Statements that may raise and print

    A computation threads a state [S] (what has been printed, what the
    database holds) and ends in a value or a raised exception. *)

Definition M (S A : Type) : Type := S → result A * S.

(** Sequencing, as instances of the monad classes, which gives the
    notations [x ← m; k] and [m;; k]. *)
#[global] Instance M_ret {S} : MRet (M S) := λ A a s, (Ok a, s).

#[global] Instance M_bind {S} : MBind (M S) := λ A B k m s,
  match m s with
  | (Ok a, s') => k a s'
  | (Raise e, s') => (Raise e, s')
  end.

Definition raise {S A} (e : string) : M S A := λ s, (Raise e, s).

Definition modify {S} (f : S → S) : M S unit := λ s, (Ok tt, f s).

Definition gets {S A} (f : S → A) : M S A := λ s, (Ok (f s), s).

(** Lift the outcome of an external call. *)
Definition lift {S A} (r : result A) : M S A := λ s, (r, s).

(** [try: body / except Exception as e: handler e] *)
Definition try_except {S A} (body : M S A) (handler : string → M S A) : M S A :=
  λ s, match body s with
       | (Ok a, s') => (Ok a, s')
       | (Raise e, s') => handler e s'
       end.

(** [try: body / finally: fin]: [fin] runs on both exits; an exception
    of [fin] replaces the outcome of [body]. *)
Definition try_finally {S A} (body : M S A) (fin : M S unit) : M S A :=
  λ s, match body s with
       | (r, s') =>
           match fin s' with
           | (Ok _, s'') => (r, s'')
           | (Raise e, s'') => (Raise e, s'')
           end
       end.

End Py.

(* ===================================================================== *)
(** * statsRoutes.py                                                     *)
(* ===================================================================== *)

Module Stats.
Import Py.

(** ** Timestamps

    [datetime.now(timezone.utc)] and the [timestamp] column are aware
    datetimes in UTC; two of them compare field by field, most
    significant first. *)

Record datetime : Type := mkDatetime {
  year : Z; month : Z; day : Z;
  hour : Z; minute : Z; second : Z; microsecond : Z
}.

(** [now.replace(hour=0, minute=0, second=0, microsecond=0)] *)
Definition replace_midnight (d : datetime) : datetime :=
  {| year := year d; month := month d; day := day d;
     hour := 0; minute := 0; second := 0; microsecond := 0 |}.

Definition dt_fields (d : datetime) : list Z :=
  [year d; month d; day d; hour d; minute d; second d; microsecond d].

Fixpoint lex_compare (a b : list Z) : comparison :=
  match a, b with
  | [], [] => Eq
  | [], _ :: _ => Lt
  | _ :: _, [] => Gt
  | x :: a', y :: b' =>
      match x ?= y with
      | Eq => lex_compare a' b'
      | c => c
      end
  end.

Definition dt_compare (a b : datetime) : comparison :=
  lex_compare (dt_fields a) (dt_fields b).

(** [a >= b] *)
Definition dt_ge (a b : datetime) : bool :=
  match dt_compare a b with Lt => false | _ => true end.

(** [a <= b] *)
Definition dt_le (a b : datetime) : bool := dt_ge b a.

(** ** Rows of the three tables read by the endpoint *)

(** Modelled from the spec: [app/models.py] is not part of the sources;
    the columns are those of the data model (a nullable [contact_id],
    boolean flags, integer keys). *)
Record Interaction : Type := mkInteraction {
  i_id : Z;
  i_user_id : Z;
  i_contact_id : option Z;
  i_timestamp : datetime
}.

Record Alert : Type := mkAlert {
  a_id : Z;
  a_user_id : Z;
  a_read : bool
}.

Record Reminder : Type := mkReminder {
  r_id : Z;
  r_user_id : Z;
  r_completed : bool;
  r_enabled : bool
}.

Record User : Type := mkUser { u_id : Z }.

Record Database : Type := mkDatabase {
  interactions : list Interaction;
  alerts : list Alert;
  reminders : list Reminder
}.

(** ** SQL aggregates *)

(** [count(expr)]: the number of rows where [expr] is not NULL. The
    aggregate always yields one row, so [.scalar()] is [Some]. *)
Definition sql_count (col : list (option Z)) : option Z :=
  Some (Z.of_nat (length (omap id col))).

(** [count(distinct expr)]: the number of different non-NULL values. *)
Definition sql_count_distinct (col : list (option Z)) : option Z :=
  Some (Z.of_nat (length (remove_dups (omap id col)))).

(** ** The four queries of [get_dashboard_stats] *)

Definition visitors_rows (db : Database) (uid : Z) (today_start : datetime)
  : list Interaction :=
  filter (λ i, i_user_id i = uid
               ∧ i_contact_id i ≠ None
               ∧ dt_ge (i_timestamp i) today_start)
         (interactions db).

Definition conversations_rows (db : Database) (uid : Z) : list Interaction :=
  filter (λ i, i_user_id i = uid) (interactions db).

Definition unread_rows (db : Database) (uid : Z) : list Alert :=
  filter (λ a, a_user_id a = uid ∧ a_read a = false) (alerts db).

Definition upcoming_rows (db : Database) (uid : Z) : list Reminder :=
  filter (λ r, r_user_id r = uid ∧ r_completed r = false ∧ r_enabled r = true)
         (reminders db).

Definition visitors_today (db : Database) (uid : Z) (today_start : datetime) : Z :=
  or_zero (sql_count_distinct (i_contact_id <$> visitors_rows db uid today_start)).

Definition total_conversations (db : Database) (uid : Z) : Z :=
  or_zero (sql_count ((λ i, Some (i_id i)) <$> conversations_rows db uid)).

Definition unread_alerts (db : Database) (uid : Z) : Z :=
  or_zero (sql_count ((λ a, Some (a_id a)) <$> unread_rows db uid)).

Definition upcoming_reminders (db : Database) (uid : Z) : Z :=
  or_zero (sql_count ((λ r, Some (r_id r)) <$> upcoming_rows db uid)).

(** [get_dashboard_stats(db, current_user)], with the instant read from
    the clock made a parameter. The debug prints do not contribute to
    the returned value. *)
Definition get_dashboard_stats (db : Database) (current_user : User)
    (now : datetime) : dict Z :=
  let today_start := replace_midnight now in
  let uid := u_id current_user in
  [ ("visitors"%string, visitors_today db uid today_start);
    ("conversations"%string, total_conversations db uid);
    ("unreadAlerts"%string, unread_alerts db uid);
    ("upcomingReminders"%string, upcoming_reminders db uid) ].

End Stats.

(* ===================================================================== *)
(** * The relational store as seen by the two maintenance scripts        *)
(* ===================================================================== *)

Module Db.
Import Py.

(** The tables of one namespace, each with its columns. *)
Abbreviation Tables := (gmap string (list string)).

(** The catalogue of a database as a session sees it. [current] holds
    the tables that unqualified names denote (the namespaces of the
    search path); [elsewhere] are the other namespaces, which
    [information_schema.columns] lists all the same. *)
Record Schema : Type := mkSchema {
  current : Tables;
  elsewhere : list Tables
}.

(** [sch !! t]: the columns of the table that the unqualified name [t]
    denotes. *)
#[global] Instance Schema_lookup : Lookup string (list string) Schema :=
  λ t sch, current sch !! t.

(** The calls made on a session. Each may fail for reasons outside the
    catalogue (connectivity, permissions); [Faults] says which do, and
    with what message. Creating a session, rolling it back and closing it
    reach the server only through a connection that one of these calls
    has opened; they are taken not to raise. *)
Inductive DbCall : Type :=
| CallSelect   (* db.execute(text("SELECT column_name ...")) *)
| CallFetch    (* result.fetchone() *)
| CallAlter    (* db.execute(text("ALTER TABLE ... DROP COLUMN mood")) *)
| CallCommit.  (* db.commit() *)

#[global] Instance DbCall_eq_dec : EqDecision DbCall.
Proof. solve_decision. Defined.

Definition Faults : Type := DbCall → option string.

Definition no_faults : Faults := λ _, None.

(** The rows of [information_schema.columns] with
    [table_name='interactions' AND column_name='mood'] that one
    namespace contributes. *)
Definition mood_rows (ts : Tables) : list string :=
  match ts !! "interactions"%string with
  | Some cols => filter (λ c, c = "mood"%string) cols
  | None => []
  end.

(** [SELECT column_name FROM information_schema.columns
     WHERE table_name='interactions' AND column_name='mood']:
    the query names no [table_schema], so it ranges over every
    namespace. It has no [ORDER BY]; the order chosen here plays no
    part, as the scripts only test whether there is a row. *)
Definition select_mood_column (sch : Schema) : list string :=
  mood_rows (current sch) ++ (elsewhere sch ≫= mood_rows).

(** [fetchone()]: the first row, or [None]. *)
Definition fetchone (rows : list string) : option string := head rows.

(** The refusals of the server; the texts stand for its messages. *)
Definition undefined_table : string := "relation interactions does not exist".
Definition undefined_column : string :=
  "column mood of relation interactions does not exist".

(** [ALTER TABLE interactions DROP COLUMN mood]: the name is unqualified,
    so the statement acts on the table it denotes, and is refused when
    that table or its column is missing. *)
Definition drop_mood_column (sch : Schema) : result Schema :=
  match sch !! "interactions"%string with
  | None => Raise undefined_table
  | Some cols =>
      if decide ("mood"%string ∈ cols)
      then Ok {| current :=
                   <["interactions"%string :=
                       filter (λ c, c ≠ "mood"%string) cols]> (current sch);
                 elsewhere := elsewhere sch |}
      else Raise undefined_column
  end.

End Db.

(* ===================================================================== *)
(** * migrations/remove_mood_column.py                                   *)
(* ===================================================================== *)

Module Migration.
Import Py Db.

(** What the process does to the outside, in order. Of the printed
    lines the text is kept; rules of [=] signs, blank lines and the
    leading check mark or cross are left out. *)
Inductive Event : Type :=
| EvPrint (msg : string)
| EvOpen                  (* SessionLocal() *)
| EvCall (c : DbCall)
| EvRollback
| EvClose.

#[global] Instance Event_eq_dec : EqDecision Event.
Proof. solve_decision. Defined.

(** The database holds [stored]; an open session works on [pending],
    its own view of the schema, until it commits or rolls back. *)
Record World : Type := mkWorld {
  stored : Schema;
  pending : option Schema;
  trace : list Event
}.

Definition emit (e : Event) : M World unit :=
  modify (λ w, {| stored := stored w; pending := pending w;
                  trace := trace w ++ [e] |}).

Definition print (msg : string) : M World unit := emit (EvPrint msg).

Definition set_pending (p : option Schema) : M World unit :=
  modify (λ w, {| stored := stored w; pending := p; trace := trace w |}).

Definition set_stored (s : Schema) : M World unit :=
  modify (λ w, {| stored := s; pending := pending w; trace := trace w |}).

(** The view of the running transaction; it starts from what is stored. *)
Definition view (w : World) : Schema := default (stored w) (pending w).

(** A call on the session: recorded, then failing if [Faults] says so. *)
Definition call (F : Faults) (c : DbCall) : M World unit :=
  emit (EvCall c);;
  match F c with
  | Some e => raise e
  | None => mret tt
  end.

Definition SessionLocal : M World unit :=
  emit EvOpen;; sch ← gets stored; set_pending (Some sch).

Definition execute_select (F : Faults) : M World (list string) :=
  call F CallSelect;; gets (λ w, select_mood_column (view w)).

Definition result_fetchone (F : Faults) (rows : list string) : M World (option string) :=
  call F CallFetch;; mret (fetchone rows).

Definition execute_alter (F : Faults) : M World unit :=
  call F CallAlter;;
  sch ← gets view;
  sch' ← lift (drop_mood_column sch);
  set_pending (Some sch').

Definition commit (F : Faults) : M World unit :=
  call F CallCommit;; sch ← gets view; set_stored sch.

Definition rollback : M World unit :=
  emit EvRollback;; sch ← gets stored; set_pending (Some sch).

Definition close : M World unit :=
  emit EvClose;; set_pending None.

(** [remove_mood_column()] *)
Definition remove_mood_column (F : Faults) : M World unit :=
  SessionLocal;;
  try_finally
    (try_except
       (print "Removing mood column from interactions table...";;
        result ← execute_select F;
        row ← result_fetchone F result;
        if bool_decide (is_Some row) then
          execute_alter F;;
          commit F;;
          print "Successfully removed mood column from interactions table"
        else
          print "Mood column does not exist (already removed or never existed)")
       (λ e,
          print ("Error removing mood column: " +:+ e);;
          rollback;;
          raise e))
    close.

(** The [__main__] block; [response] is the line read by [input]. *)
Definition main (F : Faults) (response : string) : M World unit :=
  print "Database Migration: Remove Mood Column";;
  if str_in (lower response) ["yes"; "y"]%string then
    remove_mood_column F;;
    print "Migration completed successfully!"
  else
    print "Migration cancelled".

(** Running the script against a database. *)
Definition run (F : Faults) (response : string) (sch : Schema) : result unit * World :=
  main F response {| stored := sch; pending := None; trace := [] |}.

(** The exit status of the process: an uncaught exception ends it with
    status 1. *)
Definition exit_code (r : result unit) : Z :=
  match r with Ok _ => 0 | Raise _ => 1 end.

End Migration.

(* ===================================================================== *)
(** * verify_mood_removal.py                                             *)
(* ===================================================================== *)

Module Verify.
Import Py Db.

(** ** What the script reads *)

(** One entry of [results['metadatas']]: the keys of a metadata dict, or
    [None] for a record stored without metadata. *)
Definition Metadata : Type := option (list string).

(** The value of [collection.get(limit=5)]; [metadatas] may be [None]. *)
Record GetResult : Type := mkGetResult {
  metadatas : option (list Metadata)
}.

Record Env : Type := mkEnv {
  env_schema : Schema;               (* the catalogue of the database *)
  env_faults : Faults;               (* which session calls raise *)
  env_collection : result unit;      (* get_conversation_collection() *)
  env_get : result (option GetResult);
    (* collection.get(limit=5); [None] stands for a falsy result *)
  env_model : result bool;
    (* from app.models import Interaction, then hasattr(Interaction, 'mood') *)
  env_read : string → result string  (* open(path, 'r').read() *)
}.

(** ** What the script prints *)

Inductive Severity : Type := INFO | PASS | WARNING | FAIL | ERROR.

#[global] Instance Severity_eq_dec : EqDecision Severity.
Proof. solve_decision. Defined.

(** A printed line: the tag it carries ([INFO] when it has none) and the
    text after the tag and its colon. Rules of [=] signs, blank lines,
    indentation and the check mark, cross or warning sign that starts a
    line are layout and are left out. *)
Definition Line : Type := Severity * string.

Record State : Type := mkState {
  printed : list Line;
  session_open : bool
}.

Definition print (sev : Severity) (msg : string) : M State unit :=
  modify (λ st, {| printed := printed st ++ [(sev, msg)];
                   session_open := session_open st |}).

Definition set_session (b : bool) : M State unit :=
  modify (λ st, {| printed := printed st; session_open := b |}).

Definition db_call (env : Env) (c : DbCall) : M State unit :=
  match env_faults env c with
  | Some e => raise e
  | None => mret tt
  end.

(** ** Check 1 *)

(** The statements under [try:]. *)
Definition schema_body (env : Env) : M State bool :=
  db_call env CallSelect;;
  let result := select_mood_column (env_schema env) in
  db_call env CallFetch;;
  if bool_decide (is_Some (fetchone result)) then
    print FAIL "mood column still exists in database";;
    mret false
  else
    print PASS "mood column removed from database";;
    mret true.

(** The handler shared by the first three checks. *)
Definition report_error (e : string) : M State bool :=
  print ERROR e;; mret false.

Definition check_database_schema (env : Env) : M State bool :=
  print INFO "1. Checking Database Schema...";;
  set_session true;;
  try_finally
    (try_except (schema_body env) report_error)
    (set_session false).

(** ** Check 2 *)

(** The loop over [results['metadatas']], left at the first dict that has
    the key; ['mood' in None] raises a [TypeError]. *)
Fixpoint scan_metadatas (ms : list Metadata) : M State bool :=
  match ms with
  | [] => mret false
  | None :: _ => raise "argument of type 'NoneType' is not iterable"
  | Some keys :: ms' =>
      if str_in "mood" keys then mret true else scan_metadatas ms'
  end.

(** [not results or not results['metadatas']] *)
Definition no_entries (results : option GetResult) : bool :=
  match results with
  | None => true
  | Some r =>
      match metadatas r with
      | None | Some [] => true
      | Some (_ :: _) => false
      end
  end.

Definition metadatas_of (results : option GetResult) : list Metadata :=
  match results with
  | Some r => default [] (metadatas r)
  | None => []
  end.

Definition chroma_body (env : Env) : M State bool :=
  lift (env_collection env);;
  results ← lift (env_get env);
  if no_entries results then
    print WARNING "No entries found in ChromaDB";;
    mret true
  else
    has_mood ← scan_metadatas (metadatas_of results);
    if has_mood : bool then
      print WARNING "Some entries still have mood in metadata";;
      print INFO "Note: Old entries may still have mood, but new entries should not";;
      mret true
    else
      print PASS "No mood field found in ChromaDB metadata";;
      mret true.

Definition check_chromadb_metadata (env : Env) : M State bool :=
  print INFO "2. Checking ChromaDB Metadata...";;
  try_except (chroma_body env) report_error.

(** ** Check 3 *)

Definition model_body (env : Env) : M State bool :=
  has_attr ← lift (env_model env);
  if has_attr : bool then
    print FAIL "Interaction model still has mood attribute";;
    mret false
  else
    print PASS "Interaction model does not have mood attribute";;
    mret true.

Definition check_model_definition (env : Env) : M State bool :=
  print INFO "3. Checking Model Definition...";;
  try_except (model_body env) report_error.

(** ** Check 4 *)

Definition files_to_check : list string :=
  [ "app/routes/interactionRoutes.py";
    "app/routes/asrRoutes.py";
    "app/routes/searchRoutes.py";
    "ai_engine/asr/conversation_store.py" ]%string.

Definition double_quote : ascii := "034"%char.
Definition newline : ascii := "010"%char.

(** The token between double quotes, and between single quotes. *)
Definition mood_dq : string :=
  String double_quote ("mood" +:+ String double_quote EmptyString).
Definition mood_sq : string := "'mood'"%string.

(** The two nested conditions under which a line is appended to
    [mood_refs]. *)
Definition flags_line (line : string) : bool :=
  (contains "mood" (lower line) && negb (startswith "#" (strip line)))
  && (contains mood_dq line || contains mood_sq line).

(** [for i, line in enumerate(lines, i0)], collecting [(i, line.strip())]. *)
Fixpoint collect_refs (i : nat) (lines : list string) : list (nat * string) :=
  match lines with
  | [] => []
  | line :: rest =>
      (if flags_line line then [(i, strip line)] else [])
        ++ collect_refs (S i) rest
  end.

Definition mood_refs (content : string) : list (nat * string) :=
  collect_refs 1 (split newline content).

(** [f"Line {line_num}: {line[:80]}"] *)
Definition ref_line (ref : nat * string) : string :=
  "Line " +:+ pretty ref.1 +:+ ": " +:+ str_take 80 ref.2.

Fixpoint print_refs (refs : list (nat * string)) : M State unit :=
  match refs with
  | [] => mret tt
  | ref :: rest => print INFO (ref_line ref);; print_refs rest
  end.

(** The body of the loop over [files_to_check]; the value is the new
    [all_clean]. *)
(** [f"Found mood references in {file_path}:"] *)
Definition found_refs (file_path : string) : string :=
  "Found mood references in " +:+ file_path +:+ ":".

Definition file_body (env : Env) (all_clean : bool) (file_path : string)
  : M State bool :=
  content ← lift (env_read env file_path);
  let refs := mood_refs content in
  if bool_decide (refs ≠ []) then
    print WARNING (found_refs file_path);;
    print_refs (take 3 refs);;
    mret false
  else
    mret all_clean.

Definition file_error (file_path e : string) : string :=
  "checking " +:+ file_path +:+ ": " +:+ e.

Definition check_file (env : Env) (all_clean : bool) (file_path : string)
  : M State bool :=
  try_except
    (file_body env all_clean file_path)
    (λ e, print ERROR (file_error file_path e);; mret false).

Fixpoint check_files (env : Env) (all_clean : bool) (files : list string)
  : M State bool :=
  match files with
  | [] => mret all_clean
  | f :: rest =>
      all_clean' ← check_file env all_clean f;
      check_files env all_clean' rest
  end.

Definition check_route_definitions (env : Env) : M State bool :=
  print INFO "4. Checking Route Definitions...";;
  all_clean ← check_files env true files_to_check;
  (if all_clean : bool
   then print PASS "No mood references found in route files"
   else mret tt);;
  mret all_clean.

(** ** The driver *)

Fixpoint print_summary (results : list (string * bool)) : M State unit :=
  match results with
  | [] => mret tt
  | (check_name, passed) :: rest =>
      print (if passed : bool then PASS else FAIL) check_name;;
      print_summary rest
  end.

(** [all(result[1] for result in results)] *)
Definition all_passed (results : list (string * bool)) : bool :=
  forallb snd results.

(** The four checks in order, giving the list [results]. *)
Definition run_checks (env : Env) : M State (list (string * bool)) :=
  r1 ← check_database_schema env;
  r2 ← check_chromadb_metadata env;
  r3 ← check_model_definition env;
  r4 ← check_route_definitions env;
  mret [ ("Database Schema"%string, r1);
         ("ChromaDB Metadata"%string, r2);
         ("Model Definition"%string, r3);
         ("Route Definitions"%string, r4) ].

Definition main (env : Env) : M State Z :=
  print INFO "Mood Removal Verification Script";;
  results ← run_checks env;
  print INFO "Verification Summary";;
  print_summary results;;
  (if all_passed results
   then print INFO "All checks passed! Mood feature successfully removed."
   else print INFO "Some checks failed. Please review the output above.");;
  mret (if all_passed results then 0 else 1).

Definition initial : State := {| printed := []; session_open := false |}.

(** [sys.exit(main())]: the exit status, or the uncaught exception. *)
Definition run (env : Env) : result Z * State := main env initial.

End Verify.

(* ===================================================================== *)
(** * The dashboard contract, in the words of the specification          *)
(* ===================================================================== *)

Module StatsSpec.
Import Py Stats.

(** The current calendar day up to the present instant: from midnight
    UTC through [now], both ends included. *)
Definition in_today_window (now t : datetime) : Prop :=
  dt_le (replace_midnight now) t ∧ dt_le t now.

(** The distinct non-null contacts among a user's interactions of that
    window. *)
Definition spec_visitor_set (db : Database) (uid : Z) (now : datetime) : gset Z :=
  list_to_set
    (omap i_contact_id
       (filter (λ i, i_user_id i = uid ∧ in_today_window now (i_timestamp i))
               (interactions db))).

Definition spec_visitors (db : Database) (uid : Z) (now : datetime) : Z :=
  Z.of_nat (size (spec_visitor_set db uid now)).

(** The rows of each table that belong to a user. *)
Definition own_interactions (uid : Z) (db : Database) : list Interaction :=
  filter (λ i, i_user_id i = uid) (interactions db).
Definition own_alerts (uid : Z) (db : Database) : list Alert :=
  filter (λ a, a_user_id a = uid) (alerts db).
Definition own_reminders (uid : Z) (db : Database) : list Reminder :=
  filter (λ r, r_user_id r = uid) (reminders db).

(** Two states hold the same rows for [uid], in any order; the rows of
    other users are unconstrained. *)
Definition agree_on (uid : Z) (db1 db2 : Database) : Prop :=
  own_interactions uid db1 ≡ₚ own_interactions uid db2
  ∧ own_alerts uid db1 ≡ₚ own_alerts uid db2
  ∧ own_reminders uid db1 ≡ₚ own_reminders uid db2.

Definition has_no_rows (uid : Z) (db : Database) : Prop :=
  own_interactions uid db = []
  ∧ own_alerts uid db = []
  ∧ own_reminders uid db = [].

Definition stats_keys : list string :=
  ["visitors"; "conversations"; "unreadAlerts"; "upcomingReminders"]%string.

Definition zero_stats : dict Z :=
  [ ("visitors"%string, 0); ("conversations"%string, 0);
    ("unreadAlerts"%string, 0); ("upcomingReminders"%string, 0) ].

(** Adding one reminder to a state. *)
Definition add_reminder (r : Reminder) (db : Database) : Database :=
  {| interactions := interactions db; alerts := alerts db;
     reminders := r :: reminders db |}.

(** ** Concrete states *)

Definition at_time (d h m : Z) : datetime :=
  {| year := 2025; month := 3; day := d;
     hour := h; minute := m; second := 0; microsecond := 0 |}.

(** 10 March 2025, noon UTC. *)
Definition noon : datetime := at_time 10 12 0.

Definition user_a : User := {| u_id := 1 |}.
Definition user_b : User := {| u_id := 2 |}.

(** One interaction of user A, stamped six hours after [noon]. *)
Definition db_future : Database :=
  {| interactions := [ mkInteraction 1 1 (Some 7) (at_time 10 18 0) ];
     alerts := []; reminders := [] |}.

(** User A: three interactions today (two contacts, one without
    contact), two yesterday with contacts. *)
Definition db_scenario : Database :=
  {| interactions :=
       [ mkInteraction 1 1 (Some 10) (at_time 10 8 0);
         mkInteraction 2 1 (Some 11) (at_time 10 9 30);
         mkInteraction 3 1 None (at_time 10 10 0);
         mkInteraction 4 1 (Some 12) (at_time 9 15 0);
         mkInteraction 5 1 (Some 10) (at_time 9 16 45) ];
     alerts := []; reminders := [] |}.

(** User A has one read alert; user B has three unread ones. *)
Definition db_b_alerts : Database :=
  {| interactions := [ mkInteraction 1 1 (Some 10) (at_time 10 8 0) ];
     alerts := [ mkAlert 1 2 false; mkAlert 2 1 true;
                 mkAlert 3 2 false; mkAlert 4 2 false ];
     reminders := [ mkReminder 1 1 false true ] |}.

(** The same rows for user A, none for user B. *)
Definition db_a_only : Database :=
  {| interactions := [ mkInteraction 1 1 (Some 10) (at_time 10 8 0) ];
     alerts := [ mkAlert 2 1 true ];
     reminders := [ mkReminder 1 1 false true ] |}.

End StatsSpec.

(* ===================================================================== *)
(** * statsRoutes.py: the diagnostic trace                               *)
(* ===================================================================== *)

Module StatsDebug.
Import Py Stats.

(** The second query of the endpoint: the user's interactions from
    [today_start] on, with or without contact. *)
Definition all_interactions_today (db : Database) (uid : Z)
    (today_start : datetime) : list Interaction :=
  filter (λ i, i_user_id i = uid ∧ dt_ge (i_timestamp i) today_start)
         (interactions db).

(** One [print] of the endpoint, kept as the values it formats. *)
Inductive LogLine : Type :=
| LogRange (today_start now : datetime)
    (* [Stats] Checking visitors from {today_start} to {now} *)
| LogUser (uid : Z)
    (* [Stats] User ID: {current_user.id} *)
| LogTotal (n : nat)
    (* [Stats] Total interactions today: {len(all_interactions_today)} *)
| LogInteraction (id : Z) (contact_id : option Z) (timestamp : datetime)
    (* [Stats] - Interaction {id}: contact_id=..., timestamp=... *)
| LogResults (visitors conversations alerts reminders : Z).
    (* [Stats] Results - visitors: ..., conversations: ..., ... *)

(** What [get_dashboard_stats] prints, in order. *)
Definition dashboard_log (db : Database) (current_user : User)
    (now : datetime) : list LogLine :=
  let today_start := replace_midnight now in
  let uid := u_id current_user in
  let today := all_interactions_today db uid today_start in
  [ LogRange today_start now; LogUser uid; LogTotal (length today) ]
  ++ ((λ i, LogInteraction (i_id i) (i_contact_id i) (i_timestamp i)) <$> today)
  ++ [ LogResults (visitors_today db uid today_start)
                  (total_conversations db uid)
                  (unread_alerts db uid)
                  (upcoming_reminders db uid) ].

End StatsDebug.

(* ===================================================================== *)
(** * The migration contract                                             *)
(* ===================================================================== *)

Module MigrationSpec.
Import Py Db Migration.

(** The answers on which the script proceeds. *)
Definition affirmative (response : string) : Prop :=
  str_in (lower response) ["yes"; "y"]%string = true.

(** The table that the name [interactions] denotes has no column [mood]
    (or there is no such table). *)
Definition lacks_mood (sch : Schema) : Prop :=
  ∀ cols, sch !! "interactions"%string = Some cols → "mood"%string ∉ cols.

(** A namespace has a table [interactions] with a column [mood]. *)
Definition holds_mood (ts : Tables) : Prop :=
  ∃ cols, ts !! "interactions"%string = Some cols ∧ "mood"%string ∈ cols.

(** Some namespace off the search path has such a table. *)
Definition mood_elsewhere (sch : Schema) : Prop :=
  Exists holds_mood (elsewhere sch).

(** Some namespace of the database has such a table. *)
Definition mood_anywhere (sch : Schema) : Prop :=
  holds_mood (current sch) ∨ mood_elsewhere sch.

(** Call [c] raises [e]: it fails from outside, or it is the [ALTER]
    that the server refuses on this catalogue. *)
Definition raised_by (F : Faults) (sch : Schema) (c : DbCall) (e : string) : Prop :=
  F c = Some e
  ∨ (c = CallAlter ∧ F c = None ∧ drop_mood_column sch = Raise e).

Definition outcome (out : result unit * World) : result unit := out.1.
Definition final_schema (out : result unit * World) : Schema := stored out.2.
Definition events (out : result unit * World) : list Event := trace out.2.

(** An event other than printing: the session was opened or used. *)
Definition db_event (e : Event) : Prop :=
  match e with EvPrint _ => False | _ => True end.

(** ** The shapes of a run

    The world left by a failed run: the stored schema is the initial one,
    and the trace ends with the report, the rollback and the close. *)
Definition failed (sch : Schema) (e : string) (calls : list Event)
  : result unit * World :=
  (Raise e,
   {| stored := sch; pending := None;
      trace := [EvPrint "Database Migration: Remove Mood Column"; EvOpen;
                EvPrint "Removing mood column from interactions table..."]
               ++ calls
               ++ [EvPrint ("Error removing mood column: " +:+ e);
                   EvRollback; EvClose] |}).

Definition finished (sch : Schema) (steps : list Event) : result unit * World :=
  (Ok tt,
   {| stored := sch; pending := None;
      trace := [EvPrint "Database Migration: Remove Mood Column"; EvOpen;
                EvPrint "Removing mood column from interactions table..."]
               ++ steps
               ++ [EvClose; EvPrint "Migration completed successfully!"] |}).

(** ** Concrete states *)

Definition tables_with_mood : Tables :=
  {[ "interactions"%string :=
       ["id"; "user_id"; "contact_id"; "mood"; "timestamp"]%string;
     "alerts"%string := ["id"; "user_id"; "read"]%string ]}.

Definition tables_without_mood : Tables :=
  {[ "interactions"%string :=
       ["id"; "user_id"; "contact_id"; "timestamp"]%string;
     "alerts"%string := ["id"; "user_id"; "read"]%string ]}.

(** One namespace, with the column. *)
Definition sch_with_mood : Schema :=
  {| current := tables_with_mood; elsewhere := [] |}.

(** One namespace, without the column. *)
Definition sch_without_mood : Schema :=
  {| current := tables_without_mood; elsewhere := [] |}.

(** The table that [interactions] denotes has no column [mood]; a second
    namespace holds a table of the same name that still has it. *)
Definition sch_foreign_mood : Schema :=
  {| current := tables_without_mood; elsewhere := [tables_with_mood] |}.

(** Both the table that [interactions] denotes and its namesake in a
    second namespace have the column. *)
Definition sch_both_mood : Schema :=
  {| current := tables_with_mood; elsewhere := [tables_with_mood] |}.

(** The connection is lost when the transaction commits. *)
Definition commit_fails : Faults :=
  λ c, if decide (c = CallCommit) then Some "connection lost"%string else None.

End MigrationSpec.

(* ===================================================================== *)
(** * The audit contract                                                 *)
(* ===================================================================== *)

Module VerifySpec.
Import Py Db Verify.

(** A statement run on its own: how it ends, and what it prints. *)
Definition outcome {A} (m : M State A) : result A := (m initial).1.
Definition output {A} (m : M State A) : list Line := printed (m initial).2.

(** The script as a process. *)
Definition exit_status (env : Env) : result Z := (run env).1.
Definition report (env : Env) : list Line := printed (run env).2.

(** A statement that only prints: from any state it ends as [r], having
    appended [ls]. *)
Definition prints {A} (m : M State A) (r : result A) (ls : list Line) : Prop :=
  ∀ st, m st = (r, {| printed := printed st ++ ls;
                      session_open := session_open st |}).

Definition printing {A} (m : M State A) : Prop := ∃ r ls, prints m r ls.

(** The same from a state without open session, which is closed again
    at the end. *)
Definition reports {A} (m : M State A) (r : result A) (ls : list Line) : Prop :=
  ∀ st, session_open st = false →
    m st = (r, {| printed := printed st ++ ls; session_open := false |}).

(** The lines of the summary, for the four verdicts. *)
Definition verdict_line (name : string) (passed : bool) : Line :=
  (if passed then PASS else FAIL, name).

Definition summary_of (r1 r2 r3 r4 : bool) : list Line :=
  [ (INFO, "Verification Summary"%string);
    verdict_line "Database Schema" r1;
    verdict_line "ChromaDB Metadata" r2;
    verdict_line "Model Definition" r3;
    verdict_line "Route Definitions" r4 ].

Definition closing_line (passed : bool) : Line :=
  (INFO, if passed
         then "All checks passed! Mood feature successfully removed."%string
         else "Some checks failed. Please review the output above."%string).

(** ** The textual check, in the words of the claim *)

Definition has_substring (needle hay : string) : Prop :=
  ∃ before after, hay = before +:+ needle +:+ after.

(** The token between quotes of either kind occurs in the line. *)
Definition quoted_token (line : string) : Prop :=
  has_substring mood_dq line ∨ has_substring mood_sq line.

(** The stripped line starts with [#]. *)
Definition comment_line (line : string) : Prop :=
  startswith "#" (strip line) = true.

(** A file that can be read and in which no line is flagged. *)
Definition file_clean (env : Env) (file_path : string) : Prop :=
  ∃ content, env_read env file_path = Ok content ∧ mood_refs content = [].

(** ** The inputs of each check *)

Definition same_database (env env' : Env) : Prop :=
  env_schema env = env_schema env'
  ∧ ∀ c, env_faults env c = env_faults env' c.

Definition same_store (env env' : Env) : Prop :=
  env_collection env = env_collection env' ∧ env_get env = env_get env'.

Definition same_model (env env' : Env) : Prop :=
  env_model env = env_model env'.

Definition same_files (env env' : Env) : Prop :=
  ∀ f, f ∈ files_to_check → env_read env f = env_read env' f.

(** ** Concrete environments *)

Definition clean_schema : Schema :=
  {| current := {[ "interactions"%string :=
                     ["id"; "user_id"; "contact_id"; "timestamp"]%string ]};
     elsewhere := [] |}.

(** Schema, store and model are in order, every file is readable, and
    one route file still holds the token between quotes. *)
Definition env_quoted : Env :=
  {| env_schema := clean_schema;
     env_faults := no_faults;
     env_collection := Ok tt;
     env_get := Ok (Some {| metadatas := Some [Some ["speaker"; "timestamp"]%string] |});
     env_model := Ok false;
     env_read := λ f,
       if String.eqb f "app/routes/asrRoutes.py"
       then Ok ("def store(data):" +:+ String newline
                  ("    m = data.get('mood')" +:+ String newline EmptyString))
       else Ok "import os"%string |}.

(** Everything is in order. *)
Definition env_clean : Env :=
  {| env_schema := clean_schema;
     env_faults := no_faults;
     env_collection := Ok tt;
     env_get := Ok None;
     env_model := Ok false;
     env_read := λ _, Ok "value = interaction.mood"%string |}.

(** The database is unreachable, the store holds a record without
    metadata, the models cannot be imported and one file is missing. *)
Definition env_broken : Env :=
  {| env_schema := clean_schema;
     env_faults := λ c, if decide (c = CallSelect)
                        then Some "connection refused"%string else None;
     env_collection := Ok tt;
     env_get := Ok (Some {| metadatas := Some [None] |});
     env_model := Raise "No module named app.models";
     env_read := λ f,
       if String.eqb f "app/routes/searchRoutes.py"
       then Raise "No such file or directory"
       else Ok "import os"%string |}.

End VerifySpec.

(* ===================================================================== *)
(** * Further vocabulary for the properties of the three units           *)
(* ===================================================================== *)

Module MoreSpec.
Import Py Stats StatsSpec Db Migration MigrationSpec Verify.

(** ** Dashboard *)

(** Two instants of the same calendar day. *)
Definition same_date (a b : datetime) : Prop :=
  year a = year b ∧ month a = month b ∧ day a = day b.

(** The time of day of a clock reading has no negative field. *)
Definition valid_time (t : datetime) : Prop :=
  0 ≤ hour t ∧ 0 ≤ minute t ∧ 0 ≤ second t ∧ 0 ≤ microsecond t.

Definition add_interaction (i : Interaction) (db : Database) : Database :=
  {| interactions := i :: interactions db; alerts := alerts db;
     reminders := reminders db |}.

(** Contact [c] belongs to an interaction of the user stamped at or
    after [t0]. *)
Definition seen_since (db : Database) (uid : Z) (t0 : datetime) (c : Z) : Prop :=
  ∃ i, i ∈ interactions db ∧ i_user_id i = uid
       ∧ i_contact_id i = Some c ∧ dt_ge (i_timestamp i) t0 = true.

(** A line of the diagnostic trace that shows an interaction. *)
Definition interaction_line (l : StatsDebug.LogLine) : Prop :=
  match l with StatsDebug.LogInteraction _ _ _ => True | _ => False end.

#[global] Instance interaction_line_dec (l : StatsDebug.LogLine) :
  Decision (interaction_line l).
Proof. destruct l; apply _. Defined.

(** ** Migration *)

(** The answers the script takes for a confirmation. *)
Definition affirmative_answers : list string :=
  [ "y"; "Y"; "yes"; "yeS"; "yEs"; "yES"; "Yes"; "YeS"; "YEs"; "YES" ]%string.

(** The shape of the trace of a confirmed run: printing, the opening,
    what happens in the session, the closing, printing. *)
Definition session_shape (tr : list Event) : Prop :=
  ∃ before during after,
    tr = before ++ EvOpen :: during ++ EvClose :: after
    ∧ (∀ ev, ev ∈ before ++ after → ¬ db_event ev)
    ∧ (EvOpen ∉ during) ∧ (EvClose ∉ during).

(** ** Text *)

Fixpoint all_space (s : string) : Prop :=
  match s with
  | EmptyString => True
  | String c s' => is_space c = true ∧ all_space s'
  end.

(** The first and the last character of a text, if any, are not white
    space. *)
Definition first_char (s : string) : option ascii :=
  match s with EmptyString => None | String c _ => Some c end.

Fixpoint last_char (s : string) : option ascii :=
  match s with
  | EmptyString => None
  | String c EmptyString => Some c
  | String _ s' => last_char s'
  end.

Definition trimmed (s : string) : Prop :=
  (∀ c, first_char s = Some c → is_space c = false)
  ∧ (∀ c, last_char s = Some c → is_space c = false).

(** [sep.join(pieces)] for a one-character separator. *)
Fixpoint join (sep : ascii) (pieces : list string) : string :=
  match pieces with
  | [] => EmptyString
  | [p] => p
  | p :: rest => p +:+ String sep (join sep rest)
  end.

Fixpoint count_char (c : ascii) (s : string) : nat :=
  match s with
  | EmptyString => 0
  | String d s' => (if Ascii.eqb d c then 1 else 0) + count_char c s'
  end.

Fixpoint occurs (c : ascii) (s : string) : Prop :=
  match s with
  | EmptyString => False
  | String d s' => d = c ∨ occurs c s'
  end.

(** ** Audit *)

(** A reachable database with the given catalogue; store, model and
    files in order. *)
Definition env_on (sch : Schema) : Env :=
  {| env_schema := sch;
     env_faults := no_faults;
     env_collection := Ok tt;
     env_get := Ok None;
     env_model := Ok false;
     env_read := λ _, Ok "import os"%string |}.

(** The message of the [TypeError] raised by ['mood' in None]. *)
Definition none_type_error : string :=
  "argument of type 'NoneType' is not iterable".

(** The scan of the metadata stops at a record without metadata before
    it has met the key. *)
Definition lacks_key (m : Metadata) : Prop :=
  ∃ keys, m = Some keys ∧ str_in "mood" keys = false.

Definition has_key (m : Metadata) : Prop :=
  ∃ keys, m = Some keys ∧ str_in "mood" keys = true.

Definition meets_missing_metadata (ms : list Metadata) : Prop :=
  ∃ before after, ms = before ++ None :: after ∧ Forall lacks_key before.

Definition meets_key (ms : list Metadata) : Prop :=
  ∃ before m after, ms = before ++ m :: after ∧ has_key m ∧ Forall lacks_key before.

(** What the textual check prints for one file. *)
Definition file_lines (env : Env) (file_path : string) : list Line :=
  match env_read env file_path with
  | Raise e => [(ERROR, file_error file_path e)]
  | Ok content =>
      match mood_refs content with
      | [] => []
      | refs =>
          (WARNING, found_refs file_path)
            :: ((λ ref, (INFO, ref_line ref)) <$> take 3 refs)
      end
  end.

End MoreSpec.

(* ===================================================================== *)
(** * Properties of the dashboard aggregator                             *)
(* ===================================================================== *)

Module StatsProofs.
Import Py Stats StatsSpec.

(** ** The SQL aggregates *)

Lemma or_zero_of_nat (n : nat) : or_zero (Some (Z.of_nat n)) = Z.of_nat n.
Proof.
  unfold or_zero. destruct (Z.eqb_spec (Z.of_nat n) 0) as [E|_]; [by rewrite E|done].
Qed.

Lemma omap_id_fmap_Some {A B} (f : A → B) (l : list A) :
  omap id ((λ x, Some (f x)) <$> l) = f <$> l.
Proof. induction l as [|x l IH]; [done|]. cbn. by rewrite IH. Qed.

Lemma omap_id_fmap {A B} (f : A → option B) (l : list A) :
  omap id (f <$> l) = omap f l.
Proof.
  induction l as [|x l IH]; [done|]. cbn. destruct (f x); cbn; by rewrite IH.
Qed.

(** A key column has no NULL: [count(id)] is the number of rows. *)
Lemma count_key_column {A} (key : A → Z) (rows : list A) :
  or_zero (sql_count ((λ x, Some (key x)) <$> rows)) = Z.of_nat (length rows).
Proof.
  unfold sql_count. rewrite or_zero_of_nat, omap_id_fmap_Some.
  by rewrite length_fmap.
Qed.

Lemma length_remove_dups_size (l : list Z) :
  length (remove_dups l) = size (list_to_set l : gset Z).
Proof.
  rewrite <- (size_list_to_set (C:=gset Z) (remove_dups l))
    by apply NoDup_remove_dups.
  f_equal. apply set_eq. intros x.
  rewrite !elem_of_list_to_set. apply elem_of_remove_dups.
Qed.

Lemma count_distinct_size (col : list (option Z)) :
  or_zero (sql_count_distinct col)
  = Z.of_nat (size (list_to_set (omap id col) : gset Z)).
Proof.
  unfold sql_count_distinct. by rewrite or_zero_of_nat, length_remove_dups_size.
Qed.

(** ** Timestamps *)

Lemma lex_compare_refl (a : list Z) : lex_compare a a = Eq.
Proof. induction a as [|x a IH]; [done|]. cbn. by rewrite Z.compare_refl. Qed.

Lemma dt_ge_refl (t : datetime) : dt_ge t t = true.
Proof. unfold dt_ge, dt_compare. by rewrite lex_compare_refl. Qed.

(** The start of the day itself lies in the window of the query. *)
Lemma midnight_is_counted (now : datetime) :
  dt_ge (replace_midnight now) (replace_midnight now) = true.
Proof. apply dt_ge_refl. Qed.

(** ** What each query returns *)

Lemma visitors_rows_own (db : Database) (uid : Z) (t0 : datetime) :
  visitors_rows db uid t0
  = filter (λ i, i_contact_id i ≠ None ∧ dt_ge (i_timestamp i) t0)
           (own_interactions uid db).
Proof.
  unfold visitors_rows, own_interactions. rewrite list_filter_filter.
  apply list_filter_iff. intros i. tauto.
Qed.

Lemma unread_rows_own (db : Database) (uid : Z) :
  unread_rows db uid = filter (λ a, a_read a = false) (own_alerts uid db).
Proof.
  unfold unread_rows, own_alerts. rewrite list_filter_filter.
  apply list_filter_iff. intros a. tauto.
Qed.

Lemma upcoming_rows_own (db : Database) (uid : Z) :
  upcoming_rows db uid
  = filter (λ r, r_completed r = false ∧ r_enabled r = true)
           (own_reminders uid db).
Proof.
  unfold upcoming_rows, own_reminders. rewrite list_filter_filter.
  apply list_filter_iff. intros r. tauto.
Qed.

(** Projecting the contact drops the rows without one, so the explicit
    [isnot(None)] of the query changes nothing in the count. *)
Lemma contacts_of_known_rows (uid : Z) (t0 : datetime) (l : list Interaction) :
  omap i_contact_id
    (filter (λ i, i_user_id i = uid ∧ i_contact_id i ≠ None
                  ∧ dt_ge (i_timestamp i) t0) l)
  = omap i_contact_id
      (filter (λ i, i_user_id i = uid ∧ dt_ge (i_timestamp i) t0) l).
Proof.
  induction l as [|i l IH]; [done|].
  rewrite !filter_cons.
  destruct (decide (i_user_id i = uid ∧ i_contact_id i ≠ None
                    ∧ dt_ge (i_timestamp i) t0)) as [(Hu & Hc & Ht)|Hn].
  - rewrite decide_True by done. cbn. by rewrite IH.
  - destruct (decide (i_user_id i = uid ∧ dt_ge (i_timestamp i) t0))
      as [(Hu & Ht)|Hn']; [|done].
    destruct (i_contact_id i) eqn:E.
    + exfalso. apply Hn. done.
    + cbn. rewrite E. apply IH.
Qed.

(** The visitors query counts the distinct contacts of the user's rows
    stamped at or after midnight; it sets no upper end. *)
Lemma visitors_from_midnight (db : Database) (uid : Z) (t0 : datetime) :
  visitors_today db uid t0
  = Z.of_nat (size (list_to_set
       (omap i_contact_id
          (filter (λ i, i_user_id i = uid ∧ dt_ge (i_timestamp i) t0)
                  (interactions db))) : gset Z)).
Proof.
  unfold visitors_today. rewrite count_distinct_size, omap_id_fmap.
  unfold visitors_rows. by rewrite contacts_of_known_rows.
Qed.

Lemma conversations_count (db : Database) (uid : Z) :
  total_conversations db uid = Z.of_nat (length (own_interactions uid db)).
Proof. apply count_key_column. Qed.

Lemma unread_count (db : Database) (uid : Z) :
  unread_alerts db uid
  = Z.of_nat (length (filter (λ a, a_user_id a = uid ∧ a_read a = false)
                             (alerts db))).
Proof. apply count_key_column. Qed.

Lemma upcoming_count (db : Database) (uid : Z) :
  upcoming_reminders db uid
  = Z.of_nat (length (filter (λ r, r_user_id r = uid ∧ r_completed r = false
                                   ∧ r_enabled r = true) (reminders db))).
Proof. apply count_key_column. Qed.

Lemma filter_ext_in {A} (P Q : A → Prop)
    `{!∀ x, Decision (P x), !∀ x, Decision (Q x)} (l : list A) :
  (∀ x, x ∈ l → (P x ↔ Q x)) → filter P l = filter Q l.
Proof.
  induction l as [|a l IH]; intros Hin; [done|].
  rewrite !filter_cons.
  rewrite IH by (intros x Hx; apply Hin; by right).
  apply decide_ext, Hin. by left.
Qed.

(** When no row of the user is stamped after [now], the query agrees
    with the window that ends at [now]. *)
Lemma visitors_window_without_later_rows (db : Database) (uid : Z) (now : datetime) :
  (∀ i, i ∈ own_interactions uid db → dt_le (i_timestamp i) now) →
  visitors_today db uid (replace_midnight now) = spec_visitors db uid now.
Proof.
  intros Hle. rewrite visitors_from_midnight.
  unfold spec_visitors, spec_visitor_set. do 4 f_equal.
  apply filter_ext_in. intros i Hi. unfold in_today_window, dt_le.
  split; [intros [Hu Ht]|tauto].
  split; [done|]. split; [done|].
  apply Hle. unfold own_interactions. by apply list_elem_of_filter.
Qed.

(** ** The returned record *)

Lemma stats_fields (db : Database) (u : User) (now : datetime) :
  get_dashboard_stats db u now
  = [ ("visitors"%string, visitors_today db (u_id u) (replace_midnight now));
      ("conversations"%string, Z.of_nat (length (own_interactions (u_id u) db)));
      ("unreadAlerts"%string,
         Z.of_nat (length (filter (λ a, a_read a = false) (own_alerts (u_id u) db))));
      ("upcomingReminders"%string,
         Z.of_nat (length (filter (λ r, r_completed r = false ∧ r_enabled r = true)
                                  (own_reminders (u_id u) db)))) ].
Proof.
  unfold get_dashboard_stats.
  rewrite conversations_count.
  unfold unread_alerts, upcoming_reminders.
  by rewrite !count_key_column, unread_rows_own, upcoming_rows_own.
Qed.

Lemma get_visitors (db : Database) (u : User) (now : datetime) :
  dict_get "visitors" (get_dashboard_stats db u now)
  = Some (visitors_today db (u_id u) (replace_midnight now)).
Proof. reflexivity. Qed.

Lemma get_conversations (db : Database) (u : User) (now : datetime) :
  dict_get "conversations" (get_dashboard_stats db u now)
  = Some (total_conversations db (u_id u)).
Proof. reflexivity. Qed.

Lemma get_unread (db : Database) (u : User) (now : datetime) :
  dict_get "unreadAlerts" (get_dashboard_stats db u now)
  = Some (unread_alerts db (u_id u)).
Proof. reflexivity. Qed.

Lemma get_upcoming (db : Database) (u : User) (now : datetime) :
  dict_get "upcomingReminders" (get_dashboard_stats db u now)
  = Some (upcoming_reminders db (u_id u)).
Proof. reflexivity. Qed.

Lemma visitors_nonneg (db : Database) (uid : Z) (t0 : datetime) :
  0 ≤ visitors_today db uid t0.
Proof. rewrite visitors_from_midnight. lia. Qed.

Lemma visitors_own (db : Database) (uid : Z) (t0 : datetime) :
  visitors_today db uid t0
  = Z.of_nat (size (list_to_set
       (omap i_contact_id
          (filter (λ i, dt_ge (i_timestamp i) t0) (own_interactions uid db)))
       : gset Z)).
Proof.
  rewrite visitors_from_midnight. unfold own_interactions.
  rewrite list_filter_filter. do 4 f_equal.
  apply list_filter_iff. intros i. tauto.
Qed.

(** C1: the [visitors] field is claimed to count the distinct contacts
    of the user's interactions stamped from midnight UTC through [now],
    rows after [now] not being counted. The query has no upper end: with
    one interaction of user A stamped at 18:00 and the clock at noon of
    the same day, the endpoint returns 1 where the stated window holds
    no contact at all. *)
Lemma C1_visitors_counts_rows_after_now :
  dict_get "visitors" (get_dashboard_stats db_future user_a noon) = Some 1
  ∧ spec_visitors db_future (u_id user_a) noon = 0
  ∧ dt_le (at_time 10 18 0) noon = false.
Proof. by vm_compute. Qed.

(** C3: two states that hold the same rows for the requesting user give
    the same four fields, whatever rows other users have; and
    [unreadAlerts] is the number of that user's alerts with
    [read = false]. *)
Theorem C3_cross_user_isolation (db1 db2 : Database) (u : User) (now : datetime) :
  agree_on (u_id u) db1 db2 →
  get_dashboard_stats db1 u now = get_dashboard_stats db2 u now
  ∧ dict_get "unreadAlerts" (get_dashboard_stats db1 u now)
    = Some (Z.of_nat (length (filter (λ a, a_user_id a = u_id u ∧ a_read a = false)
                                     (alerts db1)))).
Proof.
  intros (Hi & Ha & Hr). split.
  - rewrite !stats_fields, !visitors_own.
    assert (Hv : ∀ t0,
      (list_to_set (omap i_contact_id
         (filter (λ i, dt_ge (i_timestamp i) t0) (own_interactions (u_id u) db1)))
         : gset Z)
      = list_to_set (omap i_contact_id
         (filter (λ i, dt_ge (i_timestamp i) t0) (own_interactions (u_id u) db2)))).
    { intros t0. apply list_to_set_perm_L. by rewrite Hi. }
    rewrite Hv.
    rewrite (Permutation_length Hi).
    rewrite (Permutation_length (filter_Permutation _ _ _ Ha)).
    by rewrite (Permutation_length (filter_Permutation _ _ _ Hr)).
  - by rewrite get_unread, unread_count.
Qed.

Lemma C3_cross_user_isolation_witness :
  get_dashboard_stats db_a_only user_a noon
  = get_dashboard_stats db_b_alerts user_a noon
  ∧ dict_get "unreadAlerts" (get_dashboard_stats db_a_only user_a noon) = Some 0.
Proof.
  assert (Hagree : agree_on (u_id user_a) db_a_only db_b_alerts).
  { repeat split; vm_compute; reflexivity. }
  destruct (C3_cross_user_isolation db_a_only db_b_alerts user_a noon Hagree)
    as [Hsame Hunread].
  split; [exact Hsame|exact Hunread].
Defined.

(** C4: [conversations] is the number of all interactions of the user,
    whatever their time stamp and whatever the clock says. In the
    scenario of three interactions today (two distinct contacts, one
    without contact) and two from yesterday, the endpoint returns
    [visitors = 2] and [conversations = 5]. *)
Theorem C4_conversations_all_time :
  (∀ (db : Database) (u : User) (now : datetime),
     dict_get "conversations" (get_dashboard_stats db u now)
     = Some (Z.of_nat (length (filter (λ i, i_user_id i = u_id u)
                                      (interactions db)))))
  ∧ (∀ (db : Database) (u : User) (now now' : datetime),
       dict_get "conversations" (get_dashboard_stats db u now)
       = dict_get "conversations" (get_dashboard_stats db u now'))
  ∧ dict_get "visitors" (get_dashboard_stats db_scenario user_a noon) = Some 2
  ∧ dict_get "conversations" (get_dashboard_stats db_scenario user_a noon) = Some 5.
Proof.
  split; [|split; [|by vm_compute]].
  - intros db u now. by rewrite get_conversations, conversations_count.
  - intros db u now now'. by rewrite !get_conversations.
Qed.

(** C5: [upcomingReminders] is the number of the user's reminders with
    [completed = false] and [enabled = true]; a reminder that is not
    completed but disabled adds nothing to it. *)
Theorem C5_upcoming_reminders :
  (∀ (db : Database) (u : User) (now : datetime),
     dict_get "upcomingReminders" (get_dashboard_stats db u now)
     = Some (Z.of_nat (length
         (filter (λ r, r_user_id r = u_id u
                       ∧ r_completed r = false ∧ r_enabled r = true)
                 (reminders db)))))
  ∧ (∀ (db : Database) (u : User) (now : datetime) (rid ruid : Z),
       dict_get "upcomingReminders"
         (get_dashboard_stats (add_reminder (mkReminder rid ruid false false) db) u now)
       = dict_get "upcomingReminders" (get_dashboard_stats db u now)).
Proof.
  split.
  - intros db u now. by rewrite get_upcoming, upcoming_count.
  - intros db u now rid ruid.
    rewrite !get_upcoming, !upcoming_count. cbn [add_reminder reminders].
    rewrite filter_cons_False; [done|].
    cbn. intros (_ & _ & ?). done.
Qed.

(** C6: the endpoint returns exactly the four named fields, each an
    integer that is not negative; a field is zero when no row matches
    its query, and a user without interactions, alerts and reminders
    gets zero in all four. *)
Theorem C6_four_nonnegative_fields (db : Database) (u : User) (now : datetime) :
  dict_keys (get_dashboard_stats db u now) = stats_keys
  ∧ (∀ k, k ∈ stats_keys →
       ∃ v, dict_get k (get_dashboard_stats db u now) = Some v ∧ 0 ≤ v)
  ∧ (visitors_rows db (u_id u) (replace_midnight now) = [] →
       dict_get "visitors" (get_dashboard_stats db u now) = Some 0)
  ∧ (conversations_rows db (u_id u) = [] →
       dict_get "conversations" (get_dashboard_stats db u now) = Some 0)
  ∧ (unread_rows db (u_id u) = [] →
       dict_get "unreadAlerts" (get_dashboard_stats db u now) = Some 0)
  ∧ (upcoming_rows db (u_id u) = [] →
       dict_get "upcomingReminders" (get_dashboard_stats db u now) = Some 0)
  ∧ (has_no_rows (u_id u) db → get_dashboard_stats db u now = zero_stats).
Proof.
  split; [done|]. split.
  { intros k Hk. rewrite stats_fields. unfold stats_keys in Hk.
    pose proof (visitors_nonneg db (u_id u) (replace_midnight now)).
    rewrite !elem_of_cons, elem_of_nil in Hk.
    destruct Hk as [-> | [-> | [-> | [-> | []]]]]; eexists; (split; [reflexivity|lia]). }
  repeat split.
  - intros E. rewrite get_visitors. unfold visitors_today. by rewrite E.
  - intros E. rewrite get_conversations. unfold total_conversations. by rewrite E.
  - intros E. rewrite get_unread. unfold unread_alerts. by rewrite E.
  - intros E. rewrite get_upcoming. unfold upcoming_reminders. by rewrite E.
  - intros (Ei & Ea & Er). rewrite stats_fields, visitors_own, Ei, Ea, Er.
    reflexivity.
Qed.

Lemma C6_four_nonnegative_fields_witness :
  get_dashboard_stats db_b_alerts (mkUser 3) noon = zero_stats.
Proof.
  apply (C6_four_nonnegative_fields db_b_alerts (mkUser 3) noon).
  repeat split; vm_compute; reflexivity.
Defined.

End StatsProofs.

(* ===================================================================== *)
(** * Properties of the migration script                                 *)
(* ===================================================================== *)

Module MigrationProofs.
Import Py Db Migration MigrationSpec.

(** ** The catalogue *)


Lemma head_is_Some {A} (l : list A) : is_Some (head l) ↔ ∃ x, x ∈ l.
Proof.
  destruct l as [|x l]; cbn.
  - split; [by intros [? ?]|]. intros [x Hx]. by apply elem_of_nil in Hx.
  - split; [|by eexists]. intros _. exists x. by left.
Qed.

Lemma elem_of_mood_rows (x : string) (ts : Tables) :
  x ∈ mood_rows ts ↔ x = "mood"%string ∧ holds_mood ts.
Proof.
  unfold mood_rows, holds_mood.
  destruct (ts !! "interactions"%string) as [cols|].
  - rewrite list_elem_of_filter. split.
    + intros [-> Hin]. split; [done|]. by exists cols.
    + intros [-> (cols' & [= <-] & Hin)]. done.
  - rewrite elem_of_nil. split; [done|]. by intros [_ (cols & ? & _)].
Qed.

(** The query finds a row exactly when some namespace, on the search
    path or off it, has the column. *)
Lemma fetchone_select (sch : Schema) :
  is_Some (fetchone (select_mood_column sch)) ↔ mood_anywhere sch.
Proof.
  unfold fetchone, select_mood_column, mood_anywhere, mood_elsewhere.
  rewrite head_is_Some, Exists_exists. split.
  - intros (x & [Hx|Hx]%elem_of_app).
    + left. by apply elem_of_mood_rows in Hx as [_ ?].
    + right. apply list_elem_of_bind in Hx as (ts & Hx & Hts).
      exists ts. split; [done|]. by apply elem_of_mood_rows in Hx as [_ ?].
  - intros [Hc|(ts & Hts & Hh)]; exists "mood"%string; apply elem_of_app.
    + left. by apply elem_of_mood_rows.
    + right. apply list_elem_of_bind. exists ts. split; [|done].
      by apply elem_of_mood_rows.
Qed.

Lemma fetchone_select_None (sch : Schema) :
  ¬ is_Some (fetchone (select_mood_column sch)) ↔ ¬ mood_anywhere sch.
Proof. by rewrite fetchone_select. Qed.

Lemma lacks_not_holds (sch : Schema) : lacks_mood sch ↔ ¬ holds_mood (current sch).
Proof.
  unfold lacks_mood, holds_mood, lookup at 1, Schema_lookup. split.
  - intros Hl (cols & Hc & Hin). by apply (Hl cols).
  - intros Hn cols Hc Hin. apply Hn. by exists cols.
Qed.

Lemma holds_not_lacks (sch : Schema) : holds_mood (current sch) ↔ ¬ lacks_mood sch.
Proof.
  rewrite lacks_not_holds. split; [tauto|]. intros Hnn.
  unfold holds_mood in *.
  destruct (current sch !! "interactions"%string) as [cols|]; [|].
  - destruct (decide ("mood"%string ∈ cols)) as [Hin|Hout]; [by exists cols|].
    exfalso. apply Hnn. by intros (cols' & [= <-] & ?).
  - exfalso. apply Hnn. by intros (cols' & ? & _).
Qed.

Lemma nowhere_lacks (sch : Schema) : ¬ mood_anywhere sch → lacks_mood sch.
Proof. rewrite lacks_not_holds. unfold mood_anywhere. tauto. Qed.

(** What the [ALTER] does when the server accepts it. *)
Lemma drop_Ok (sch sch' : Schema) :
  drop_mood_column sch = Ok sch' →
  ∃ cols, sch !! "interactions"%string = Some cols
          ∧ "mood"%string ∈ cols
          ∧ sch' = {| current :=
                        <["interactions"%string :=
                            filter (λ c, c ≠ "mood"%string) cols]> (current sch);
                      elsewhere := elsewhere sch |}.
Proof.
  unfold drop_mood_column.
  destruct (sch !! "interactions"%string) as [cols|]; [|done].
  case_decide; [|done]. intros [= <-]. by exists cols.
Qed.

(** The server refuses the [ALTER] exactly on a table without the
    column. *)
Lemma drop_Raise (sch : Schema) :
  lacks_mood sch ↔ ∃ e, drop_mood_column sch = Raise e.
Proof.
  unfold lacks_mood, drop_mood_column.
  destruct (sch !! "interactions"%string) as [cols|].
  - case_decide as Hin.
    + split; [|by intros [e ?]]. intros Hl. by destruct (Hl cols eq_refl).
    + split; [by eexists|]. by intros _ cols' [= <-].
  - split; [by eexists|]. by intros _ cols' ?.
Qed.

Lemma dropped_lacks_mood (sch sch' : Schema) :
  drop_mood_column sch = Ok sch' → lacks_mood sch'.
Proof.
  intros (cols & _ & _ & ->)%drop_Ok cols'.
  unfold lookup, Schema_lookup. cbn [current].
  rewrite lookup_insert_eq. intros [= <-].
  rewrite list_elem_of_filter. by intros [? _].
Qed.

Lemma dropped_elsewhere (sch sch' : Schema) :
  drop_mood_column sch = Ok sch' → elsewhere sch' = elsewhere sch.
Proof. by intros (cols & _ & _ & ->)%drop_Ok. Qed.

(** ** Every run of the script, case by case *)

Lemma run_cancelled (F : Faults) (response : string) (sch : Schema) :
  ¬ affirmative response →
  run F response sch
  = (Ok tt, {| stored := sch; pending := None;
               trace := [EvPrint "Database Migration: Remove Mood Column";
                         EvPrint "Migration cancelled"] |}).
Proof.
  unfold affirmative, run, main. intros Hno.
  destruct (str_in (lower response) ["yes"; "y"]%string); [done|reflexivity].
Qed.

Lemma run_confirmed (F : Faults) (response : string) (sch : Schema) :
  affirmative response →
  run F response sch
  = match F CallSelect with
    | Some e => failed sch e [EvCall CallSelect]
    | None =>
      match F CallFetch with
      | Some e => failed sch e [EvCall CallSelect; EvCall CallFetch]
      | None =>
        if bool_decide (is_Some (fetchone (select_mood_column sch))) then
          match F CallAlter with
          | Some e =>
              failed sch e [EvCall CallSelect; EvCall CallFetch; EvCall CallAlter]
          | None =>
            match drop_mood_column sch with
            | Raise e =>
                failed sch e [EvCall CallSelect; EvCall CallFetch; EvCall CallAlter]
            | Ok sch' =>
              match F CallCommit with
              | Some e =>
                  failed sch e [EvCall CallSelect; EvCall CallFetch;
                                EvCall CallAlter; EvCall CallCommit]
              | None =>
                  finished sch'
                    [EvCall CallSelect; EvCall CallFetch; EvCall CallAlter;
                     EvCall CallCommit;
                     EvPrint "Successfully removed mood column from interactions table"]
              end
            end
          end
        else
          finished sch
            [EvCall CallSelect; EvCall CallFetch;
             EvPrint "Mood column does not exist (already removed or never existed)"]
      end
    end.
Proof.
  unfold affirmative, run, main. intros ->.
  unfold remove_mood_column, SessionLocal, execute_select, result_fetchone,
    execute_alter, commit, rollback, close, call, print, emit, set_pending,
    set_stored, gets, modify, lift, raise, try_except, try_finally, view.
  unfold mbind, mret, M_bind, M_ret. cbn -[select_mood_column drop_mood_column fetchone].
  destruct (F CallSelect) as [e|]; [reflexivity|].
  cbn -[select_mood_column drop_mood_column fetchone].
  destruct (F CallFetch) as [e|]; [reflexivity|].
  cbn -[select_mood_column drop_mood_column fetchone].
  case_bool_decide; [|reflexivity].
  cbn -[select_mood_column drop_mood_column fetchone].
  destruct (F CallAlter) as [e|]; [reflexivity|].
  cbn -[select_mood_column drop_mood_column fetchone].
  destruct (drop_mood_column sch) as [sch'|e]; [|reflexivity].
  cbn -[select_mood_column drop_mood_column fetchone].
  destruct (F CallCommit) as [e|]; reflexivity.
Qed.

(** ** Reading the cases *)

Lemma failed_outcome (sch : Schema) (e : string) (calls : list Event) :
  outcome (failed sch e calls) = Raise e
  ∧ final_schema (failed sch e calls) = sch
  ∧ ∃ before,
      events (failed sch e calls)
      = before ++ [EvPrint ("Error removing mood column: " +:+ e);
                   EvRollback; EvClose]
      ∧ ∀ c, EvCall c ∈ calls → EvCall c ∈ before.
Proof.
  split; [done|]. split; [done|].
  eexists (_ ++ calls). split.
  - unfold events, failed. cbn [snd trace]. by rewrite <- app_assoc.
  - intros c Hc. apply elem_of_app. by right.
Qed.

Lemma events_failed (sch : Schema) (e : string) (calls : list Event) (c : DbCall) :
  EvCall c ∈ events (failed sch e calls) ↔ EvCall c ∈ calls.
Proof.
  unfold events, failed. cbn [snd trace].
  rewrite !elem_of_app, !elem_of_cons, !elem_of_nil. naive_solver.
Qed.

Lemma outcome_finished (sch : Schema) (steps : list Event) :
  outcome (finished sch steps) = Ok tt.
Proof. reflexivity. Qed.

Lemma final_finished (sch : Schema) (steps : list Event) :
  final_schema (finished sch steps) = sch.
Proof. reflexivity. Qed.

Lemma events_finished (sch : Schema) (steps : list Event) (c : DbCall) :
  EvCall c ∈ events (finished sch steps) ↔ EvCall c ∈ steps.
Proof.
  unfold events, finished. cbn [snd trace].
  rewrite !elem_of_app, !elem_of_cons, !elem_of_nil. naive_solver.
Qed.

(** Cases on every call of a confirmed run and on the catalogue. *)
Ltac run_cases F sch :=
  let Hrow := fresh "Hrow" in
  destruct (F CallSelect) as [?e|] eqn:?HSelect;
  [|destruct (F CallFetch) as [?e|] eqn:?HFetch;
    [|case_bool_decide as Hrow;
      [destruct (F CallAlter) as [?e|] eqn:?HAlter;
       [|destruct (drop_mood_column sch) as [?sch'|?e] eqn:?Hdrop;
         [destruct (F CallCommit) as [?e|] eqn:?HCommit|]]|]]].

(** C7: the migration is meant to end normally and change nothing on a
    table that lacks the column. With a second namespace that holds a
    table [interactions] with the column, the query, which names no
    namespace, finds a row; the script then executes the [ALTER] on the
    table that lacks the column, the server refuses it, and the script
    ends with that exception and exit status 1, the schema unchanged. *)
Lemma C7_migration_raises_on_foreign_column :
  lacks_mood sch_foreign_mood
  ∧ outcome (run no_faults "yes" sch_foreign_mood) = Raise undefined_column
  ∧ exit_code (outcome (run no_faults "yes" sch_foreign_mood)) = 1
  ∧ events (run no_faults "yes" sch_foreign_mood)
    = [ EvPrint "Database Migration: Remove Mood Column"; EvOpen;
        EvPrint "Removing mood column from interactions table...";
        EvCall CallSelect; EvCall CallFetch; EvCall CallAlter;
        EvPrint ("Error removing mood column: " +:+ undefined_column);
        EvRollback; EvClose ]
  ∧ final_schema (run no_faults "yes" sch_foreign_mood) = sch_foreign_mood.
Proof.
  split; [|by vm_compute].
  intros cols Hcols. vm_compute in Hcols. injection Hcols as <-.
  apply (bool_decide_unpack _). vm_compute. exact I.
Qed.

(** Membership of a call in a literal list of events. *)
Ltac calls_in H :=
  rewrite ?events_failed, ?events_finished in H;
  rewrite ?elem_of_cons, ?elem_of_nil in H;
  repeat match type of H with _ ∨ _ => destruct H as [H|H] end;
  try done; try (injection H as ->).

(** C8: when a call on the session fails, from outside or because the
    server refuses the [ALTER], the exception is reported, the session
    is rolled back and closed, the same exception leaves the script, and
    the stored schema is the initial one; an exception never leaves the
    script otherwise. An answer other than [yes] or [y] ends the script
    normally, without a session having been opened. *)
Theorem C8_rollback_then_reraise (F : Faults) (sch : Schema) (response : string) :
  let out := run F response sch in
  (∀ c e, EvCall c ∈ events out → F c = Some e → outcome out = Raise e)
  ∧ (∀ c e, EvCall c ∈ events out → raised_by F sch c e →
       outcome out = Raise e)
  ∧ (∀ e, outcome out = Raise e →
       final_schema out = sch
       ∧ ∃ c before,
           raised_by F sch c e
           ∧ EvCall c ∈ before
           ∧ events out
             = before ++ [EvPrint ("Error removing mood column: " +:+ e);
                          EvRollback; EvClose])
  ∧ (¬ affirmative response →
       outcome out = Ok tt
       ∧ exit_code (outcome out) = 0
       ∧ final_schema out = sch
       ∧ ∀ ev, ev ∈ events out → ¬ db_event ev).
Proof.
  cbn zeta. destruct (decide (affirmative response)) as [Hyes|Hno].
  - rewrite (run_confirmed _ _ _ Hyes).
    assert (Hcalls : ∀ c e, EvCall c ∈ events
              match F CallSelect with
              | Some e => failed sch e [EvCall CallSelect]
              | None =>
                match F CallFetch with
                | Some e => failed sch e [EvCall CallSelect; EvCall CallFetch]
                | None =>
                  if bool_decide (is_Some (fetchone (select_mood_column sch))) then
                    match F CallAlter with
                    | Some e =>
                        failed sch e [EvCall CallSelect; EvCall CallFetch;
                                      EvCall CallAlter]
                    | None =>
                      match drop_mood_column sch with
                      | Raise e =>
                          failed sch e [EvCall CallSelect; EvCall CallFetch;
                                        EvCall CallAlter]
                      | Ok sch' =>
                        match F CallCommit with
                        | Some e =>
                            failed sch e [EvCall CallSelect; EvCall CallFetch;
                                          EvCall CallAlter; EvCall CallCommit]
                        | None =>
                            finished sch'
                              [EvCall CallSelect; EvCall CallFetch; EvCall CallAlter;
                               EvCall CallCommit;
                               EvPrint "Successfully removed mood column from interactions table"]
                        end
                      end
                    end
                  else
                    finished sch
                      [EvCall CallSelect; EvCall CallFetch;
                       EvPrint "Mood column does not exist (already removed or never existed)"]
                end
              end →
            raised_by F sch c e → outcome (run F response sch) = Raise e).
    { rewrite (run_confirmed _ _ _ Hyes).
      run_cases F sch; intros c e' Hc [HF|(-> & HF & Hd)]; calls_in Hc;
        unfold outcome, failed; cbn [fst]; congruence. }
    rewrite (run_confirmed _ _ _ Hyes) in Hcalls.
    split; [|split; [exact Hcalls|split; [|done]]].
    + intros c e Hc HF. apply (Hcalls c e Hc). by left.
    + intros e' Hraise.
      assert (Hfail : ∀ c e calls, raised_by F sch c e → EvCall c ∈ calls →
                outcome (failed sch e calls) = Raise e' →
                final_schema (failed sch e calls) = sch
                ∧ ∃ c before, raised_by F sch c e' ∧ EvCall c ∈ before
                   ∧ events (failed sch e calls)
                     = before ++ [EvPrint ("Error removing mood column: " +:+ e');
                                  EvRollback; EvClose]).
      { intros c e calls HF Hin [= ->].
        destruct (failed_outcome sch e' calls) as (_ & Hsch & before & Hev & Hbefore).
        split; [done|]. exists c, before. auto. }
      revert Hraise. run_cases F sch; intros Hraise; try done.
      * eapply Hfail; [by left| |exact Hraise]. set_solver.
      * eapply Hfail; [by left| |exact Hraise]. set_solver.
      * eapply Hfail; [by left| |exact Hraise]. set_solver.
      * eapply Hfail; [by left| |exact Hraise]. set_solver.
      * eapply (Hfail CallAlter); [by right| |exact Hraise]. set_solver.
  - rewrite (run_cancelled _ _ _ Hno). split; [|split; [|split]].
    + intros c e Hc. unfold events in Hc. cbn in Hc.
      rewrite !elem_of_cons, elem_of_nil in Hc. naive_solver.
    + intros c e Hc. unfold events in Hc. cbn in Hc.
      rewrite !elem_of_cons, elem_of_nil in Hc. naive_solver.
    + done.
    + intros _. split; [done|]. split; [done|]. split; [done|].
      intros ev Hev. unfold events in Hev. cbn in Hev.
      rewrite !elem_of_cons, elem_of_nil in Hev.
      destruct Hev as [->|[->|[]]]; cbn; tauto.
Qed.

Lemma C8_rollback_then_reraise_witness :
  outcome (run commit_fails "yes" sch_with_mood) = Raise "connection lost"
  ∧ final_schema (run commit_fails "yes" sch_with_mood) = sch_with_mood
  ∧ outcome (run commit_fails "no" sch_with_mood) = Ok tt
  ∧ final_schema (run no_faults "yes" sch_foreign_mood) = sch_foreign_mood.
Proof.
  split; [|split; [|split]].
  - apply (proj1 (C8_rollback_then_reraise commit_fails sch_with_mood "yes")
             CallCommit).
    + vm_compute. do 6 right. left.
    + reflexivity.
  - apply (proj1 (proj2 (proj2
             (C8_rollback_then_reraise commit_fails sch_with_mood "yes")))
             "connection lost"%string).
    vm_compute. reflexivity.
  - apply (proj2 (proj2 (proj2
             (C8_rollback_then_reraise commit_fails sch_with_mood "no")))).
    unfold affirmative. vm_compute. discriminate.
  - apply (proj1 (proj2 (proj2
             (C8_rollback_then_reraise no_faults sch_foreign_mood "yes")))
             undefined_column).
    vm_compute. reflexivity.
Defined.

End MigrationProofs.

(* ===================================================================== *)
(** * Properties of the audit script                                     *)
(* ===================================================================== *)

Module VerifyProofs.
Import Py Db Verify VerifySpec.

(** ** Statements that only print *)

Section Reports.
Context {A B : Type}.

Lemma reports_ret (a : A) : reports (mret a) (Ok a) [].
Proof. intros [p o] Ho. cbn in *. subst o. by rewrite app_nil_r. Qed.

Lemma reports_raise (e : string) : reports (raise (A:=A) e) (Raise e) [].
Proof. intros [p o] Ho. cbn in *. subst o. unfold raise. by rewrite app_nil_r. Qed.

Lemma reports_lift (r : result A) : reports (lift r) r [].
Proof. intros [p o] Ho. cbn in *. subst o. unfold lift. by rewrite app_nil_r. Qed.

Lemma reports_bind (m : M State A) (k : A → M State B) a r l1 l2 :
  reports m (Ok a) l1 → reports (k a) r l2 →
  reports (m ≫= k) r (l1 ++ l2).
Proof.
  intros Hm Hk st Ho. unfold mbind, M_bind. rewrite (Hm st Ho).
  rewrite Hk by done. cbn. by rewrite app_assoc.
Qed.

Lemma reports_bind_raise (m : M State A) (k : A → M State B) e l1 :
  reports m (Raise e) l1 → reports (m ≫= k) (Raise e) l1.
Proof. intros Hm st Ho. unfold mbind, M_bind. by rewrite (Hm st Ho). Qed.

Lemma reports_try_ok (m : M State A) (h : string → M State A) a l1 :
  reports m (Ok a) l1 → reports (try_except m h) (Ok a) l1.
Proof. intros Hm st Ho. unfold try_except. by rewrite (Hm st Ho). Qed.

Lemma reports_try_raise (m : M State A) (h : string → M State A) e r l1 l2 :
  reports m (Raise e) l1 → reports (h e) r l2 →
  reports (try_except m h) r (l1 ++ l2).
Proof.
  intros Hm Hh st Ho. unfold try_except. rewrite (Hm st Ho).
  rewrite Hh by done. cbn. by rewrite app_assoc.
Qed.

Lemma reports_outcome (m : M State A) r ls :
  reports m r ls → outcome m = r ∧ output m = ls.
Proof. intros Hm. unfold outcome, output. by rewrite (Hm initial eq_refl). Qed.

Lemma reports_unique (m : M State A) r r' ls ls' :
  reports m r ls → reports m r' ls' → r = r' ∧ ls = ls'.
Proof.
  intros [<- <-]%reports_outcome [<- <-]%reports_outcome. done.
Qed.
End Reports.

Section Prints.
Context {A B : Type}.

Lemma prints_reports (m : M State A) r ls : prints m r ls → reports m r ls.
Proof. intros Hm st Ho. by rewrite Hm, Ho. Qed.

Lemma prints_outcome (m : M State A) r ls :
  prints m r ls → outcome m = r ∧ output m = ls.
Proof. intros Hm. by apply reports_outcome, prints_reports. Qed.

Lemma prints_ret (a : A) : prints (mret a) (Ok a) [].
Proof. intros [p o]. cbn. by rewrite app_nil_r. Qed.

Lemma prints_raise (e : string) : prints (raise (A:=A) e) (Raise e) [].
Proof. intros [p o]. unfold raise. cbn. by rewrite app_nil_r. Qed.

Lemma prints_lift (r : result A) : prints (lift r) r [].
Proof. intros [p o]. unfold lift. cbn. by rewrite app_nil_r. Qed.

Lemma prints_bind (m : M State A) (k : A → M State B) a r l1 l2 :
  prints m (Ok a) l1 → prints (k a) r l2 → prints (m ≫= k) r (l1 ++ l2).
Proof.
  intros Hm Hk st. unfold mbind, M_bind. rewrite Hm, Hk. cbn.
  by rewrite app_assoc.
Qed.

Lemma prints_bind_raise (m : M State A) (k : A → M State B) e l1 :
  prints m (Raise e) l1 → prints (m ≫= k) (Raise e) l1.
Proof. intros Hm st. unfold mbind, M_bind. by rewrite Hm. Qed.

Lemma printing_bind (m : M State A) (k : A → M State B) :
  printing m → (∀ a, printing (k a)) → printing (m ≫= k).
Proof.
  intros ([a|e] & l1 & Hm) Hk.
  - destruct (Hk a) as (r & l2 & Hka). exists r, (l1 ++ l2).
    by eapply prints_bind.
  - exists (Raise e), l1. by apply prints_bind_raise.
Qed.

Lemma prints_try_ok (m : M State A) (h : string → M State A) a l1 :
  prints m (Ok a) l1 → prints (try_except m h) (Ok a) l1.
Proof. intros Hm st. unfold try_except. by rewrite Hm. Qed.

Lemma prints_try_raise (m : M State A) (h : string → M State A) e r l1 l2 :
  prints m (Raise e) l1 → prints (h e) r l2 →
  prints (try_except m h) r (l1 ++ l2).
Proof.
  intros Hm Hh st. unfold try_except. rewrite Hm, Hh. cbn.
  by rewrite app_assoc.
Qed.
End Prints.

Lemma prints_print (sev : Severity) (msg : string) :
  prints (print sev msg) (Ok tt) [(sev, msg)].
Proof. by intros [p o]. Qed.

Lemma printing_print (sev : Severity) (msg : string) : printing (print sev msg).
Proof. eexists _, _. apply prints_print. Qed.

Lemma printing_ret {A} (a : A) : printing (mret (M:=M State) a).
Proof. eexists _, _. apply prints_ret. Qed.

Lemma printing_raise {A} (e : string) : printing (raise (S:=State) (A:=A) e).
Proof. eexists _, _. apply prints_raise. Qed.

Lemma printing_lift {A} (r : result A) : printing (lift (S:=State) r).
Proof. eexists _, _. apply prints_lift. Qed.

Create HintDb printing.
#[local] Hint Resolve printing_print printing_ret printing_raise printing_lift
  : printing.

Ltac printing :=
  repeat first
    [ apply printing_bind; [|intros ?]
    | match goal with
      | |- printing (if ?b then _ else _) => destruct b
      | |- printing (match ?x with _ => _ end) => destruct x
      end
    | solve [auto with printing] ].

(** ** The guarded bodies *)

Lemma schema_body_printing (env : Env) : printing (schema_body env).
Proof. unfold schema_body, db_call. printing. Qed.

Lemma scan_metadatas_printing (ms : list Metadata) : printing (scan_metadatas ms).
Proof.
  induction ms as [|[keys|] ms IH]; cbn; [printing| |printing].
  destruct (str_in "mood" keys); [printing|done].
Qed.

Lemma chroma_body_printing (env : Env) : printing (chroma_body env).
Proof.
  unfold chroma_body.
  apply printing_bind; [printing|intros _].
  apply printing_bind; [printing|intros results].
  destruct (no_entries results); [printing|].
  apply printing_bind; [apply scan_metadatas_printing|intros []]; printing.
Qed.

Lemma model_body_printing (env : Env) : printing (model_body env).
Proof. unfold model_body. printing. Qed.

Lemma print_refs_prints (refs : list (nat * string)) :
  prints (print_refs refs) (Ok tt) ((λ ref, (INFO, ref_line ref)) <$> refs).
Proof.
  induction refs as [|ref refs IH]; [apply prints_ret|].
  cbn [print_refs fmap list_fmap].
  change (?x :: ?l) with ([x] ++ l).
  eapply prints_bind; [apply prints_print|apply IH].
Qed.


(** ** The four checks *)

(** A body under [try] with the shared handler: the check ends with a
    verdict; an exception of the body gives [False] and an [ERROR] line. *)
Lemma guarded_check (body : M State bool) :
  printing body →
  ∃ b ls, prints (try_except body report_error) (Ok b) ls
    ∧ (∀ e, outcome body = Raise e → b = false ∧ (ERROR, e) ∈ ls)
    ∧ (∀ b', outcome body = Ok b' → b = b' ∧ ls = output body).
Proof.
  intros ([b0|e0] & l & Hbody);
    destruct (prints_outcome _ _ _ Hbody) as [Hout Hprinted].
  - exists b0, l. split; [by apply prints_try_ok|].
    rewrite Hout, Hprinted. split; [done|]. by intros b' [= <-].
  - exists false, (l ++ [(ERROR, e0)]). split.
    + eapply prints_try_raise; [done|]. unfold report_error.
      change [(ERROR, e0)] with ([(ERROR, e0)] ++ @nil Line).
      eapply prints_bind; [apply prints_print|apply prints_ret].
    + rewrite Hout. split; [|done].
      intros e [= <-]. split; [done|]. set_solver.
Qed.

Lemma check_database_schema_reports (env : Env) :
  ∃ b ls,
    reports (check_database_schema env) (Ok b)
      ((INFO, "1. Checking Database Schema..."%string) :: ls)
    ∧ (∀ e, outcome (schema_body env) = Raise e → b = false ∧ (ERROR, e) ∈ ls)
    ∧ (∀ b', outcome (schema_body env) = Ok b' → b = b').
Proof.
  destruct (guarded_check _ (schema_body_printing env)) as (b & ls & Hp & Hr & Ho).
  exists b, ls. split; [|split; [done|naive_solver]].
  intros [p o] Hclosed. cbn in Hclosed. subst o.
  unfold check_database_schema, mbind, M_bind, try_finally, print, set_session,
    modify. cbn. rewrite Hp. cbn. by rewrite <- app_assoc.
Qed.

Lemma check_chromadb_metadata_prints (env : Env) :
  ∃ b ls,
    prints (check_chromadb_metadata env) (Ok b)
      ((INFO, "2. Checking ChromaDB Metadata..."%string) :: ls)
    ∧ (∀ e, outcome (chroma_body env) = Raise e → b = false ∧ (ERROR, e) ∈ ls)
    ∧ (∀ b', outcome (chroma_body env) = Ok b' → b = b').
Proof.
  destruct (guarded_check _ (chroma_body_printing env)) as (b & ls & Hp & Hr & Ho).
  exists b, ls. split; [|split; [done|naive_solver]].
  unfold check_chromadb_metadata.
  change (?x :: ls) with ([x] ++ ls).
  eapply prints_bind; [apply prints_print|done].
Qed.

Lemma check_model_definition_prints (env : Env) :
  ∃ b ls,
    prints (check_model_definition env) (Ok b)
      ((INFO, "3. Checking Model Definition..."%string) :: ls)
    ∧ (∀ e, outcome (model_body env) = Raise e → b = false ∧ (ERROR, e) ∈ ls)
    ∧ (∀ b', outcome (model_body env) = Ok b' → b = b').
Proof.
  destruct (guarded_check _ (model_body_printing env)) as (b & ls & Hp & Hr & Ho).
  exists b, ls. split; [|split; [done|naive_solver]].
  unfold check_model_definition.
  change (?x :: ls) with ([x] ++ ls).
  eapply prints_bind; [apply prints_print|done].
Qed.

(** One file of the fourth check. *)
Lemma check_file_prints (env : Env) (all_clean : bool) (f : string) :
  ∃ b ls,
    prints (check_file env all_clean f) (Ok b) ls
    ∧ (b = true ↔ all_clean = true ∧ file_clean env f)
    ∧ (∀ e, env_read env f = Raise e → (ERROR, file_error f e) ∈ ls).
Proof.
  unfold check_file, file_body, file_clean.
  destruct (env_read env f) as [content|e] eqn:Hread.
  - destruct (decide (mood_refs content = [])) as [Hnone|Hsome].
    + exists all_clean, []. split; [|split; [naive_solver|done]].
      apply prints_try_ok.
      change (@nil Line) with (@nil Line ++ []).
      eapply prints_bind; [apply prints_lift|]. cbn zeta.
      rewrite bool_decide_eq_false_2 by naive_solver. apply prints_ret.
    + exists false,
        ([] ++ [(WARNING, found_refs f)]
            ++ ((λ ref, (INFO, ref_line ref)) <$> take 3 (mood_refs content))
            ++ []).
      split; [|split; [naive_solver|done]].
      apply prints_try_ok.
      eapply prints_bind; [apply prints_lift|]. cbn zeta.
      rewrite bool_decide_eq_true_2 by done.
      eapply prints_bind; [apply prints_print|].
      eapply prints_bind; [apply print_refs_prints|apply prints_ret].
  - exists false, ([] ++ [(ERROR, file_error f e)] ++ []).
    split; [|split; [naive_solver|]].
    + eapply prints_try_raise.
      * apply prints_bind_raise, prints_lift.
      * eapply prints_bind; [apply prints_print|apply prints_ret].
    + intros e' [= <-]. set_solver.
Qed.

Lemma check_files_prints (env : Env) (all_clean : bool) (files : list string) :
  ∃ b ls,
    prints (check_files env all_clean files) (Ok b) ls
    ∧ (b = true ↔ all_clean = true ∧ ∀ f, f ∈ files → file_clean env f)
    ∧ (∀ f e, f ∈ files → env_read env f = Raise e →
         (ERROR, file_error f e) ∈ ls).
Proof.
  revert all_clean. induction files as [|f files IH]; intros all_clean.
  - exists all_clean, []. split; [apply prints_ret|]. set_solver.
  - destruct (check_file_prints env all_clean f) as (b1 & l1 & Hp1 & Hb1 & He1).
    destruct (IH b1) as (b & l2 & Hp2 & Hb2 & He2).
    exists b, (l1 ++ l2). split; [|split].
    + cbn [check_files]. by eapply prints_bind.
    + rewrite Hb2, Hb1. set_solver.
    + intros f' e. rewrite elem_of_cons, elem_of_app. naive_solver.
Qed.

Lemma check_route_definitions_prints (env : Env) :
  ∃ b ls,
    prints (check_route_definitions env) (Ok b)
      ((INFO, "4. Checking Route Definitions..."%string) :: ls)
    ∧ (b = true ↔ ∀ f, f ∈ files_to_check → file_clean env f)
    ∧ (∀ f e, f ∈ files_to_check → env_read env f = Raise e →
         b = false ∧ (ERROR, file_error f e) ∈ ls).
Proof.
  destruct (check_files_prints env true files_to_check) as (b & l & Hp & Hb & He).
  exists b, (l ++ (if b then [(PASS, "No mood references found in route files"%string)]
                   else []) ++ []).
  split; [|split].
  - unfold check_route_definitions.
    change (?x :: ?l) with ([x] ++ l) at 1.
    eapply prints_bind; [apply prints_print|].
    eapply prints_bind; [exact Hp|].
    eapply prints_bind; [|apply prints_ret].
    destruct b; [apply prints_print|apply prints_ret].
  - rewrite Hb. naive_solver.
  - intros f e Hf Hread. split.
    + destruct b; [|done]. destruct (proj1 Hb eq_refl) as [_ Hclean].
      destruct (Hclean f Hf) as (content & Hok & _). congruence.
    + apply elem_of_app. left. by eapply He.
Qed.

(** ** The driver *)

Lemma print_summary_prints (results : list (string * bool)) :
  prints (print_summary results) (Ok tt)
    ((λ r, verdict_line r.1 r.2) <$> results).
Proof.
  induction results as [|[name passed] results IH]; [apply prints_ret|].
  cbn [print_summary fmap list_fmap].
  change (?x :: ?l) with ([x] ++ l).
  eapply prints_bind; [apply prints_print|apply IH].
Qed.

(** The whole run, from the verdicts and lines of the four checks. *)
Lemma main_reports (env : Env) (r1 r2 r3 r4 : bool) (l1 l2 l3 l4 : list Line) :
  reports (check_database_schema env) (Ok r1) l1 →
  prints (check_chromadb_metadata env) (Ok r2) l2 →
  prints (check_model_definition env) (Ok r3) l3 →
  prints (check_route_definitions env) (Ok r4) l4 →
  reports (run_checks env)
    (Ok [ ("Database Schema"%string, r1); ("ChromaDB Metadata"%string, r2);
          ("Model Definition"%string, r3); ("Route Definitions"%string, r4) ])
    (l1 ++ l2 ++ l3 ++ l4 ++ [])
  ∧ reports (main env) (Ok (if r1 && r2 && r3 && r4 then 0 else 1))
      ([(INFO, "Mood Removal Verification Script"%string)]
         ++ (l1 ++ l2 ++ l3 ++ l4 ++ [])
         ++ summary_of r1 r2 r3 r4
         ++ [closing_line (r1 && r2 && r3 && r4)] ++ []).
Proof.
  intros H1 H2%prints_reports H3%prints_reports H4%prints_reports.
  assert (Hchecks : reports (run_checks env)
    (Ok [ ("Database Schema"%string, r1); ("ChromaDB Metadata"%string, r2);
          ("Model Definition"%string, r3); ("Route Definitions"%string, r4) ])
    (l1 ++ l2 ++ l3 ++ l4 ++ [])).
  { unfold run_checks.
    eapply reports_bind; [exact H1|].
    eapply reports_bind; [exact H2|].
    eapply reports_bind; [exact H3|].
    eapply reports_bind; [exact H4|].
    apply prints_reports, prints_ret. }
  split; [exact Hchecks|].
  unfold main.
  eapply reports_bind; [apply prints_reports, prints_print|].
  eapply reports_bind; [exact Hchecks|].
  assert (Hall : all_passed
     [ ("Database Schema"%string, r1); ("ChromaDB Metadata"%string, r2);
       ("Model Definition"%string, r3); ("Route Definitions"%string, r4) ]
     = r1 && r2 && r3 && r4).
  { unfold all_passed. cbn. by rewrite andb_true_r, !andb_assoc. }
  rewrite Hall.
  change (summary_of r1 r2 r3 r4) with
    ([(INFO, "Verification Summary"%string)]
       ++ ((λ r, verdict_line r.1 r.2) <$>
             [ ("Database Schema"%string, r1); ("ChromaDB Metadata"%string, r2);
               ("Model Definition"%string, r3); ("Route Definitions"%string, r4) ])).
  rewrite <- (app_assoc [(INFO, "Verification Summary"%string)]).
  eapply reports_bind; [apply prints_reports, prints_print|].
  eapply reports_bind; [apply prints_reports, print_summary_prints|].
  eapply reports_bind; [|apply prints_reports, prints_ret].
  apply prints_reports. unfold closing_line.
  destruct (r1 && r2 && r3 && r4); apply prints_print.
Qed.

(** ** Each check reads its own inputs only *)

Lemma check_database_schema_ext (env env' : Env) (st : State) :
  same_database env env' →
  check_database_schema env st = check_database_schema env' st.
Proof.
  intros [Hs Hf]. unfold check_database_schema, schema_body, db_call.
  by rewrite Hs, !Hf.
Qed.

Lemma check_chromadb_metadata_ext (env env' : Env) (st : State) :
  same_store env env' →
  check_chromadb_metadata env st = check_chromadb_metadata env' st.
Proof.
  intros [Hc Hg]. unfold check_chromadb_metadata, chroma_body.
  by rewrite Hc, Hg.
Qed.

Lemma check_model_definition_ext (env env' : Env) (st : State) :
  same_model env env' →
  check_model_definition env st = check_model_definition env' st.
Proof.
  intros Hm. unfold check_model_definition, model_body. by rewrite Hm.
Qed.

Lemma check_files_ext (env env' : Env) (files : list string) :
  (∀ f, f ∈ files → env_read env f = env_read env' f) →
  ∀ all_clean st,
    check_files env all_clean files st = check_files env' all_clean files st.
Proof.
  induction files as [|f files IH]; intros Hread all_clean st; [done|].
  cbn [check_files]. unfold mbind, M_bind.
  assert (Hfile : check_file env all_clean f st = check_file env' all_clean f st).
  { unfold check_file, file_body. rewrite (Hread f) by set_solver. done. }
  rewrite Hfile. destruct (check_file env' all_clean f st) as [[b|e] st']; [|done].
  apply IH. intros f' Hf'. apply Hread. set_solver.
Qed.

Lemma check_route_definitions_ext (env env' : Env) (st : State) :
  same_files env env' →
  check_route_definitions env st = check_route_definitions env' st.
Proof.
  intros Hfiles. unfold check_route_definitions, mbind, M_bind.
  destruct (print INFO "4. Checking Route Definitions..." st) as [[[]|e] st']; [|done].
  by rewrite (check_files_ext env env' files_to_check Hfiles).
Qed.

(** ** The store check never fails on what it finds *)



(** ** The schema check passes on a reachable database without the column *)


(** ** The verdicts and the exit status *)

(** C9: every check ends with a verdict, whatever is raised under its
    [try]: the exception is caught, the check prints an [ERROR] line and
    counts as failed. The driver runs the four checks in order and
    prints the summary of the four verdicts; no exception leaves it.
    The verdict of a check is the one it has when run alone, and depends
    on the inputs of that check only, so an exception in one check
    changes neither the verdict of another nor whether it runs. *)
Theorem C9_checks_isolated (env : Env) :
  ∃ r1 r2 r3 r4 : bool,
    (outcome (check_database_schema env) = Ok r1
     ∧ outcome (check_chromadb_metadata env) = Ok r2
     ∧ outcome (check_model_definition env) = Ok r3
     ∧ outcome (check_route_definitions env) = Ok r4)
    ∧ outcome (run_checks env)
      = Ok [ ("Database Schema"%string, r1); ("ChromaDB Metadata"%string, r2);
             ("Model Definition"%string, r3); ("Route Definitions"%string, r4) ]
    ∧ exit_status env = Ok (if r1 && r2 && r3 && r4 then 0 else 1)
    ∧ report env
      = (INFO, "Mood Removal Verification Script"%string)
          :: output (check_database_schema env)
          ++ output (check_chromadb_metadata env)
          ++ output (check_model_definition env)
          ++ output (check_route_definitions env)
          ++ summary_of r1 r2 r3 r4
          ++ [closing_line (r1 && r2 && r3 && r4)]
    ∧ session_open (run env).2 = false
    ∧ (∀ e, outcome (schema_body env) = Raise e →
         r1 = false ∧ (ERROR, e) ∈ output (check_database_schema env))
    ∧ (∀ e, outcome (chroma_body env) = Raise e →
         r2 = false ∧ (ERROR, e) ∈ output (check_chromadb_metadata env))
    ∧ (∀ e, outcome (model_body env) = Raise e →
         r3 = false ∧ (ERROR, e) ∈ output (check_model_definition env))
    ∧ (∀ f e, f ∈ files_to_check → env_read env f = Raise e →
         r4 = false
         ∧ (ERROR, file_error f e) ∈ output (check_route_definitions env))
    ∧ (∀ env', same_database env env' →
         outcome (check_database_schema env') = Ok r1)
    ∧ (∀ env', same_store env env' →
         outcome (check_chromadb_metadata env') = Ok r2)
    ∧ (∀ env', same_model env env' →
         outcome (check_model_definition env') = Ok r3)
    ∧ (∀ env', same_files env env' →
         outcome (check_route_definitions env') = Ok r4).
Proof.
  destruct (check_database_schema_reports env) as (r1 & l1 & H1 & He1 & _).
  destruct (check_chromadb_metadata_prints env) as (r2 & l2 & H2 & He2 & _).
  destruct (check_model_definition_prints env) as (r3 & l3 & H3 & He3 & _).
  destruct (check_route_definitions_prints env) as (r4 & l4 & H4 & _ & He4).
  destruct (main_reports env _ _ _ _ _ _ _ _ H1 H2 H3 H4) as [Hchecks Hmain].
  destruct (reports_outcome _ _ _ H1) as [Ho1 Hp1].
  destruct (prints_outcome _ _ _ H2) as [Ho2 Hp2].
  destruct (prints_outcome _ _ _ H3) as [Ho3 Hp3].
  destruct (prints_outcome _ _ _ H4) as [Ho4 Hp4].
  exists r1, r2, r3, r4.
  split; [done|].
  split; [by apply (reports_outcome _ _ _ Hchecks)|].
  split; [by apply (reports_outcome _ _ _ Hmain)|].
  split.
  { destruct (reports_outcome _ _ _ Hmain) as [_ Hpm].
    change (report env) with (output (main env)).
    rewrite Hpm, Hp1, Hp2, Hp3, Hp4.
    repeat (rewrite ?app_nil_r, <- ?app_assoc; cbn [app]). reflexivity. }
  split; [unfold run; by rewrite (Hmain initial eq_refl)|].
  rewrite Hp1, Hp2, Hp3, Hp4.
  split; [intros e He; destruct (He1 e He); set_solver|].
  split; [intros e He; destruct (He2 e He); set_solver|].
  split; [intros e He; destruct (He3 e He); set_solver|].
  split; [intros f e Hf He; destruct (He4 f e Hf He); set_solver|].
  split.
  { intros env' Hsame. unfold outcome in *.
    by rewrite <- (check_database_schema_ext env env' initial Hsame). }
  split.
  { intros env' Hsame. unfold outcome in *.
    by rewrite <- (check_chromadb_metadata_ext env env' initial Hsame). }
  split.
  { intros env' Hsame. unfold outcome in *.
    by rewrite <- (check_model_definition_ext env env' initial Hsame). }
  intros env' Hsame. unfold outcome in *.
  by rewrite <- (check_route_definitions_ext env env' initial Hsame).
Qed.

Lemma C9_checks_isolated_witness :
  exit_status env_broken = Ok 1
  ∧ (ERROR, "connection refused"%string) ∈ output (check_database_schema env_broken)
  ∧ (ERROR, "argument of type 'NoneType' is not iterable"%string)
      ∈ output (check_chromadb_metadata env_broken)
  ∧ (ERROR, "No module named app.models"%string)
      ∈ output (check_model_definition env_broken)
  ∧ (ERROR, file_error "app/routes/searchRoutes.py" "No such file or directory")
      ∈ output (check_route_definitions env_broken)
  ∧ outcome (check_database_schema env_quoted)
    = outcome (check_database_schema env_clean).
Proof.
  destruct (C9_checks_isolated env_broken)
    as (r1 & r2 & r3 & r4 & _ & _ & Hexit & _ & _ & Hs & Hc & Hm & Hf & _).
  destruct (Hs "connection refused"%string eq_refl) as [-> Hs'].
  destruct (Hc "argument of type 'NoneType' is not iterable"%string eq_refl)
    as [-> Hc'].
  destruct (Hm "No module named app.models"%string eq_refl) as [-> Hm'].
  assert (Hin : "app/routes/searchRoutes.py"%string ∈ files_to_check).
  { apply (bool_decide_unpack _). vm_compute. exact I. }
  destruct (Hf "app/routes/searchRoutes.py"%string
              "No such file or directory"%string Hin eq_refl) as [-> Hf'].
  split; [exact Hexit|]. split; [exact Hs'|]. split; [exact Hc'|].
  split; [exact Hm'|]. split; [exact Hf'|].
  destruct (C9_checks_isolated env_clean)
    as (q1 & q2 & q3 & q4 & (Hq1 & _) & _ & _ & _ & _ & _ & _ & _ & _ & Hdb & _).
  rewrite Hq1. apply Hdb. split; [reflexivity|intros c; reflexivity].
Defined.

End VerifyProofs.

(* ===================================================================== *)
(** * Properties of the textual check                                    *)
(* ===================================================================== *)

Module TextualProofs.
Import Py Verify VerifySpec.

(** ** Substrings *)

Lemma append_nil_l (s : string) : EmptyString +:+ s = s.
Proof. reflexivity. Qed.

Lemma append_cons (c : ascii) (a b : string) :
  String c a +:+ b = String c (a +:+ b).
Proof. reflexivity. Qed.

Lemma append_assoc (a b c : string) : (a +:+ b) +:+ c = a +:+ b +:+ c.
Proof.
  induction a as [|x a IH]; [done|]. by rewrite !append_cons, IH.
Qed.

Lemma prefix_spec (p s : string) :
  String.prefix p s = true ↔ ∃ rest, s = p +:+ rest.
Proof.
  revert s. induction p as [|c p IH]; intros s.
  - split; [intros _; by exists s|]. by destruct s.
  - destruct s as [|d s]; cbn [String.prefix].
    + split; [done|]. intros [rest Hrest]. by rewrite append_cons in Hrest.
    + destruct (ascii_dec c d) as [->|Hne].
      * rewrite IH. split; intros [rest Hrest]; exists rest.
        -- by rewrite append_cons, Hrest.
        -- rewrite append_cons in Hrest. by injection Hrest.
      * split; [done|]. intros [rest Hrest].
        rewrite append_cons in Hrest. injection Hrest as ? _. congruence.
Qed.

Lemma contains_step (needle : string) (c : ascii) (hay : string) :
  contains needle (String c hay)
  = String.prefix needle (String c hay) || contains needle hay.
Proof. reflexivity. Qed.

(** [needle in hay] holds exactly when [hay] is some text, the needle,
    and some text. *)
Lemma contains_spec (needle hay : string) :
  contains needle hay = true ↔ has_substring needle hay.
Proof.
  split.
  - induction hay as [|c hay IH].
    + cbn [contains]. rewrite orb_false_r. intros [rest ->]%prefix_spec.
      by exists EmptyString, rest.
    + rewrite contains_step. intros [Hp|Hc]%orb_true_iff.
      * apply prefix_spec in Hp as [rest ->]. by exists EmptyString, rest.
      * destruct (IH Hc) as (a & b & ->). by exists (String c a), b.
  - intros (a & b & ->). induction a as [|c a IH].
    + rewrite append_nil_l.
      assert (Hp : String.prefix needle (needle +:+ b) = true)
        by (apply prefix_spec; by exists b).
      destruct (needle +:+ b); cbn [contains]; by rewrite Hp.
    + rewrite append_cons, contains_step, IH. apply orb_true_r.
Qed.

Lemma has_substring_trans (a b c : string) :
  has_substring a b → has_substring b c → has_substring a c.
Proof.
  intros (x & y & ->) (u & v & ->).
  exists (u +:+ x), (y +:+ v). by rewrite !append_assoc.
Qed.

Lemma lower_append (a b : string) : lower (a +:+ b) = lower a +:+ lower b.
Proof.
  induction a as [|c a IH]; [done|].
  rewrite append_cons. cbn [lower]. by rewrite IH, append_cons.
Qed.

Lemma has_substring_lower (needle hay : string) :
  has_substring needle hay → has_substring (lower needle) (lower hay).
Proof.
  intros (a & b & ->). exists (lower a), (lower b). by rewrite !lower_append.
Qed.

(** A quoted token carries the bare token, in lower case, with it. *)
Lemma quoted_token_has_mood (line : string) :
  quoted_token line → contains "mood" (lower line) = true.
Proof.
  intros Hq. apply contains_spec.
  assert (Hdq : has_substring "mood" (lower mood_dq))
    by (by exists (String double_quote EmptyString),
                  (String double_quote EmptyString)).
  assert (Hsq : has_substring "mood" (lower mood_sq))
    by (by exists "'"%string, "'"%string).
  destruct Hq as [Hq|Hq]; apply has_substring_lower in Hq;
    eauto using has_substring_trans.
Qed.

(** ** Which lines are flagged *)

Lemma flags_line_spec (line : string) :
  flags_line line = true ↔ quoted_token line ∧ ¬ comment_line line.
Proof.
  assert (Hq : contains mood_dq line || contains mood_sq line = true
               ↔ quoted_token line).
  { unfold quoted_token. by rewrite orb_true_iff, !contains_spec. }
  unfold flags_line, comment_line.
  rewrite !andb_true_iff, negb_true_iff, Hq.
  split.
  - intros [[_ Hc] Hquoted]. split; [done|]. by rewrite Hc.
  - intros [Hquoted Hc]. split; [split|done].
    + by apply quoted_token_has_mood.
    + by destruct (startswith "#" (strip line)).
Qed.

Lemma collect_refs_spec (i : nat) (lines : list string) (n : nat) (text : string) :
  (n, text) ∈ collect_refs i lines
  ↔ ∃ line, (i ≤ n)%nat ∧ lines !! (n - i)%nat = Some line
            ∧ text = strip line ∧ flags_line line = true.
Proof.
  revert i. induction lines as [|l lines IH]; intros i.
  - cbn [collect_refs]. rewrite elem_of_nil. naive_solver.
  - cbn [collect_refs]. rewrite elem_of_app, IH. split.
    + intros [Hhere|(line & Hle & Hlook & -> & Hflag)].
      * destruct (flags_line l) eqn:Hflag; [|by apply elem_of_nil in Hhere].
        apply list_elem_of_singleton in Hhere as [= -> ->].
        exists l. rewrite Nat.sub_diag. done.
      * exists line. split; [lia|]. split; [|done].
        replace (n - i)%nat with (S (n - S i)) by lia. done.
    + intros (line & Hle & Hlook & -> & Hflag).
      destruct (decide (n = i)) as [->|Hne].
      * left. rewrite Nat.sub_diag in Hlook. injection Hlook as ->.
        rewrite Hflag. by apply list_elem_of_singleton.
      * right. exists line. split; [lia|]. split; [|done].
        replace (n - i)%nat with (S (n - S i)) in Hlook by lia. done.
Qed.

(** C10: the textual check flags a line exactly when the token stands
    between double or single quotes somewhere in the line and the
    stripped line does not start with [#]. The references it collects
    are the flagged lines, numbered from 1. A line without the quoted
    token is never flagged, whatever bare occurrences it has, such as an
    attribute access. *)
Theorem C10_flags_only_quoted_token :
  (∀ line, flags_line line = true ↔ quoted_token line ∧ ¬ comment_line line)
  ∧ (∀ content n text,
       (n, text) ∈ mood_refs content
       ↔ ∃ line, (1 ≤ n)%nat
                 ∧ split newline content !! (n - 1)%nat = Some line
                 ∧ text = strip line
                 ∧ quoted_token line ∧ ¬ comment_line line)
  ∧ (∀ line, ¬ quoted_token line → flags_line line = false)
  ∧ flags_line "value = interaction.mood" = false
  ∧ flags_line "interaction.mood = data.mood  # mood" = false.
Proof.
  split; [exact flags_line_spec|]. split; [|split; [|by vm_compute]].
  - intros content n text. unfold mood_refs. rewrite collect_refs_spec.
    split; intros (line & ? & ? & ? & Hflag); exists line;
      [apply flags_line_spec in Hflag|]; [naive_solver|].
    split; [done|]. split; [done|]. split; [done|]. by apply flags_line_spec.
  - intros line Hnq. destruct (flags_line line) eqn:Hflag; [|done].
    apply flags_line_spec in Hflag. naive_solver.
Qed.

Lemma C10_flags_only_quoted_token_witness :
  flags_line "mood = record.mood" = false
  ∧ quoted_token "x = data['mood']".
Proof.
  split.
  - apply (proj1 (proj2 (proj2 C10_flags_only_quoted_token))).
    intros [Hq|Hq]; apply contains_spec in Hq; vm_compute in Hq; discriminate Hq.
  - apply (proj1 C10_flags_only_quoted_token "x = data['mood']"%string).
    vm_compute. reflexivity.
Defined.

End TextualProofs.

(* ===================================================================== *)
(** * The report of the textual check                                    *)
(* ===================================================================== *)

Module RouteReport.
Import Py Db Verify VerifySpec MoreSpec VerifyProofs TextualProofs.

(** ** The warning names its file *)

Lemma length_append (a b : string) :
  String.length (a +:+ b) = (String.length a + String.length b)%nat.
Proof.
  induction a as [|c a IH]; [done|]. rewrite append_cons. cbn. by rewrite IH.
Qed.

Lemma append_cancel_r (a b t : string) : a +:+ t = b +:+ t → a = b.
Proof.
  revert b. induction a as [|c a IH]; intros [|d b] Heq.
  - done.
  - apply (f_equal String.length) in Heq.
    rewrite !length_append in Heq. cbn [String.length] in Heq. lia.
  - apply (f_equal String.length) in Heq.
    rewrite !length_append in Heq. cbn [String.length] in Heq. lia.
  - rewrite !append_cons in Heq. injection Heq as -> Heq. f_equal. by apply IH.
Qed.

Lemma found_refs_inj (f f' : string) : found_refs f' = found_refs f → f' = f.
Proof.
  unfold found_refs. intros Heq. apply (inj _) in Heq.
  by apply append_cancel_r in Heq.
Qed.

(** ** The lines of each file *)

(** What one file contributes to the report and to the verdict. *)
Lemma check_file_lines (env : Env) (all_clean : bool) (f : string) :
  prints (check_file env all_clean f)
    (Ok (all_clean && bool_decide (file_lines env f = []))) (file_lines env f).
Proof.
  unfold check_file, file_body, file_lines.
  destruct (env_read env f) as [content|e].
  - destruct (mood_refs content) as [|ref refs] eqn:Hrefs.
    + rewrite bool_decide_eq_true_2, andb_true_r by done.
      apply prints_try_ok.
      change (@nil Line) with (@nil Line ++ []).
      eapply prints_bind; [apply prints_lift|]. cbn zeta. rewrite Hrefs.
      rewrite bool_decide_eq_false_2 by naive_solver. apply prints_ret.
    + rewrite bool_decide_eq_false_2, andb_false_r by done.
      apply prints_try_ok.
      rewrite <- (app_nil_r (_ <$> _)).
      change (?w :: ?l ++ []) with ([] ++ [w] ++ l ++ []).
      eapply prints_bind; [apply prints_lift|]. cbn zeta. rewrite Hrefs.
      rewrite bool_decide_eq_true_2 by done.
      eapply prints_bind; [apply prints_print|].
      eapply prints_bind; [apply print_refs_prints|apply prints_ret].
  - rewrite bool_decide_eq_false_2, andb_false_r by done.
    change [(ERROR, file_error f e)] with ([] ++ [(ERROR, file_error f e)] ++ []).
    eapply prints_try_raise.
    + apply prints_bind_raise, prints_lift.
    + eapply prints_bind; [apply prints_print|apply prints_ret].
Qed.

Lemma check_files_lines (env : Env) (all_clean : bool) (files : list string) :
  prints (check_files env all_clean files)
    (Ok (all_clean && forallb (λ f, bool_decide (file_lines env f = [])) files))
    (files ≫= file_lines env).
Proof.
  revert all_clean. induction files as [|f files IH]; intros all_clean.
  - cbn. rewrite andb_true_r. apply prints_ret.
  - cbn [check_files forallb]. rewrite bind_cons, andb_assoc.
    eapply prints_bind; [apply check_file_lines|apply IH].
Qed.

Lemma check_route_definitions_lines (env : Env) :
  prints (check_route_definitions env)
    (Ok (forallb (λ f, bool_decide (file_lines env f = [])) files_to_check))
    ((INFO, "4. Checking Route Definitions..."%string)
       :: (files_to_check ≫= file_lines env)
       ++ (if forallb (λ f, bool_decide (file_lines env f = [])) files_to_check
           then [(PASS, "No mood references found in route files"%string)]
           else [])).
Proof.
  unfold check_route_definitions.
  change (?x :: ?l) with ([x] ++ l) at 1.
  eapply prints_bind; [apply prints_print|].
  eapply prints_bind; [apply (check_files_lines env true)|]. cbn [andb].
  rewrite <- (app_nil_r (if forallb _ _ then _ else _)).
  eapply prints_bind; [|apply prints_ret].
  destruct (forallb _ _); [apply prints_print|apply prints_ret].
Qed.

Lemma file_lines_nil (env : Env) (f : string) :
  file_lines env f = [] ↔ file_clean env f.
Proof.
  unfold file_lines, file_clean. destruct (env_read env f) as [content|e].
  - destruct (mood_refs content) as [|ref refs] eqn:Hrefs.
    + split; [intros _; by exists content|done].
    + split; [done|]. intros (content' & [= <-] & Hnil). congruence.
  - split; [done|]. by intros (content & ? & _).
Qed.

Lemma warning_in_file_lines (env : Env) (f f' : string) :
  (WARNING, found_refs f) ∈ file_lines env f'
  ↔ f' = f ∧ ∃ content, env_read env f = Ok content ∧ mood_refs content ≠ [].
Proof.
  unfold file_lines. split.
  - destruct (env_read env f') as [content|e] eqn:Hread.
    + destruct (mood_refs content) as [|ref refs] eqn:Hrefs;
        [by intros ?%elem_of_nil|].
      intros [Heq|Hin]%elem_of_cons.
      * apply (f_equal snd) in Heq. cbn [snd] in Heq.
        apply found_refs_inj in Heq as ->. split; [done|]. exists content.
        split; [done|]. by rewrite Hrefs.
      * by apply list_elem_of_fmap in Hin as (? & ? & _).
    + by intros [=]%list_elem_of_singleton.
  - intros (-> & content & -> & Hrefs).
    destruct (mood_refs content); [done|]. by left.
Qed.




End RouteReport.

(* ===================================================================== *)
(** * The verdict of the audit                                           *)
(* ===================================================================== *)

Module VerdictProofs.
Import Py Db Verify VerifySpec MoreSpec VerifyProofs RouteReport.





End VerdictProofs.

(* ===================================================================== *)
(** * Further properties of the dashboard aggregator                     *)
(* ===================================================================== *)

Module StatsMore.
Import Py Stats StatsSpec StatsDebug MoreSpec StatsProofs.

Lemma length_remove_dups_le {A} `{EqDecision A} (l : list A) :
  (length (remove_dups l) ≤ length l)%nat.
Proof.
  induction l as [|x l IH]; [done|]. cbn. case_decide; cbn; lia.
Qed.

Lemma length_omap_le {A B} (f : A → option B) (l : list A) :
  (length (omap f l) ≤ length l)%nat.
Proof.
  induction l as [|x l IH]; [done|]. cbn. destruct (f x); cbn; lia.
Qed.

Lemma today_rows_own (db : Database) (uid : Z) (t0 : datetime) :
  all_interactions_today db uid t0
  = filter (λ i, dt_ge (i_timestamp i) t0) (own_interactions uid db).
Proof.
  unfold all_interactions_today, own_interactions. rewrite list_filter_filter.
  apply list_filter_iff. intros i. tauto.
Qed.

Lemma visitors_le_today (db : Database) (uid : Z) (t0 : datetime) :
  visitors_today db uid t0 ≤ Z.of_nat (length (all_interactions_today db uid t0)).
Proof.
  unfold visitors_today, sql_count_distinct. rewrite or_zero_of_nat, omap_id_fmap.
  apply inj_le.
  etrans; [apply length_remove_dups_le|].
  etrans; [apply length_omap_le|].
  unfold visitors_rows, all_interactions_today.
  rewrite <- (list_filter_filter_l
    (λ i, i_user_id i = uid ∧ i_contact_id i ≠ None ∧ dt_ge (i_timestamp i) t0)
    (λ i, i_user_id i = uid ∧ dt_ge (i_timestamp i) t0)) by tauto.
  apply length_filter.
Qed.

(** X1: in every state the four fields are ordered as the queries
    suggest: [visitors] is at most the number of the user's interactions
    from midnight on, which is at most [conversations]; [unreadAlerts]
    is at most the number of the user's alerts and [upcomingReminders]
    at most the number of the user's reminders. *)
Theorem X1_fields_bounded (db : Database) (u : User) (now : datetime) :
  ∃ v c a r,
    get_dashboard_stats db u now
    = [ ("visitors"%string, v); ("conversations"%string, c);
        ("unreadAlerts"%string, a); ("upcomingReminders"%string, r) ]
    ∧ 0 ≤ v
    ∧ v ≤ Z.of_nat (length (all_interactions_today db (u_id u) (replace_midnight now)))
    ∧ Z.of_nat (length (all_interactions_today db (u_id u) (replace_midnight now))) ≤ c
    ∧ c = Z.of_nat (length (own_interactions (u_id u) db))
    ∧ 0 ≤ a ≤ Z.of_nat (length (own_alerts (u_id u) db))
    ∧ 0 ≤ r ≤ Z.of_nat (length (own_reminders (u_id u) db)).
Proof.
  eexists _, _, _, _. split; [apply stats_fields|].
  split; [apply visitors_nonneg|]. split; [apply visitors_le_today|].
  split.
  { rewrite today_rows_own. apply inj_le, length_filter. }
  split; [done|].
  split; (split; [lia|apply inj_le, length_filter]).
Qed.

(** X2: the result depends on the clock only through its date: two
    readings of the same calendar day give the same four fields, however
    far apart their times are. *)
Theorem X2_same_day_same_result (db : Database) (u : User) (now now' : datetime) :
  same_date now now' →
  get_dashboard_stats db u now = get_dashboard_stats db u now'.
Proof.
  intros (Hy & Hm & Hd). unfold get_dashboard_stats, replace_midnight.
  by rewrite Hy, Hm, Hd.
Qed.

Lemma X2_same_day_same_result_witness :
  get_dashboard_stats db_scenario user_a (at_time 10 0 0)
  = get_dashboard_stats db_scenario user_a (at_time 10 23 59).
Proof.
  apply X2_same_day_same_result. repeat split.
Defined.

Lemma elem_of_visitor_set (db : Database) (uid : Z) (t0 : datetime) (c : Z) :
  c ∈ (list_to_set
         (omap i_contact_id
            (filter (λ i, i_user_id i = uid ∧ dt_ge (i_timestamp i) t0)
                    (interactions db))) : gset Z)
  ↔ seen_since db uid t0 c.
Proof.
  rewrite elem_of_list_to_set, list_elem_of_omap. unfold seen_since.
  split; intros (i & Hi & Hc); exists i.
  - apply list_elem_of_filter in Hi as [[Hu Ht] Hin].
    by apply Is_true_true in Ht.
  - destruct Hc as (Hu & Hc & Ht). split; [|done].
    apply list_elem_of_filter. split; [|done]. split; [done|].
    by apply Is_true_true.
Qed.

(** X3: [visitors] is the size of the set of contacts [c] for which the
    user has an interaction with that contact stamped at or after
    midnight UTC of the clock's date. Rows without contact, rows of
    other users and rows before midnight contribute nothing; a row
    stamped exactly at midnight counts. *)
Theorem X3_visitors_set (db : Database) (u : User) (now : datetime) :
  ∃ contacts : gset Z,
    dict_get "visitors" (get_dashboard_stats db u now)
    = Some (Z.of_nat (size contacts))
    ∧ (∀ c, c ∈ contacts ↔ seen_since db (u_id u) (replace_midnight now) c)
    ∧ (∀ i c, i ∈ interactions db → i_user_id i = u_id u →
         i_contact_id i = Some c → i_timestamp i = replace_midnight now →
         c ∈ contacts).
Proof.
  eexists. split; [|split].
  - rewrite get_visitors, visitors_from_midnight. reflexivity.
  - intros c. apply elem_of_visitor_set.
  - intros i c Hin Hu Hc Ht. apply elem_of_visitor_set.
    exists i. rewrite Ht. by rewrite dt_ge_refl.
Qed.

Lemma X3_visitors_set_witness :
  ∃ contacts : gset Z,
    dict_get "visitors" (get_dashboard_stats db_scenario user_a noon)
    = Some (Z.of_nat (size contacts))
    ∧ 10 ∈ contacts ∧ 12 ∉ contacts.
Proof.
  destruct (X3_visitors_set db_scenario user_a noon) as (S & Hv & Hin & _).
  exists S. split; [exact Hv|]. split.
  - apply Hin. exists (mkInteraction 1 1 (Some 10) (at_time 10 8 0)).
    split; [|repeat split]. unfold db_scenario. cbn [interactions]. by left.
  - intros H. apply Hin in H as (i & Hi & Hu & Hc & Ht).
    revert Hi Hu Hc Ht. unfold db_scenario. cbn [interactions].
    rewrite !elem_of_cons, elem_of_nil.
    intros [->|[->|[->|[->|[->|[]]]]]] _ Hc Ht;
      vm_compute in Hc; vm_compute in Ht; discriminate.
Defined.

Lemma visitor_set_add (i : Interaction) (db : Database) (uid : Z) (t0 : datetime) :
  i_user_id i = uid →
  (list_to_set
     (omap i_contact_id
        (filter (λ j, i_user_id j = uid ∧ dt_ge (i_timestamp j) t0)
                (interactions (add_interaction i db)))) : gset Z)
  = (if dt_ge (i_timestamp i) t0
     then match i_contact_id i with Some c => {[ c ]} | None => ∅ end
     else ∅)
    ∪ list_to_set
        (omap i_contact_id
           (filter (λ j, i_user_id j = uid ∧ dt_ge (i_timestamp j) t0)
                   (interactions db))).
Proof.
  intros Hu. cbn [add_interaction interactions]. rewrite filter_cons.
  destruct (dt_ge (i_timestamp i) t0) eqn:Ht.
  - rewrite decide_True by done. cbn [omap list_omap].
    destruct (i_contact_id i); [by rewrite list_to_set_cons|].
    by rewrite (left_id_L ∅ (∪)).
  - rewrite decide_False by (intros [_ []]).
    by rewrite (left_id_L ∅ (∪)).
Qed.

(** X4: one more interaction of the user raises [conversations] by one
    and leaves the two other counts alone. It raises [visitors] by one
    when it has a contact not yet seen since midnight and is itself
    stamped at or after midnight, and leaves [visitors] unchanged when
    it has no contact, is stamped before midnight, or shows a contact
    already seen. *)
Theorem X4_one_more_interaction (db : Database) (u : User) (now : datetime)
    (i : Interaction) :
  i_user_id i = u_id u →
  let db' := add_interaction i db in
  let t0 := replace_midnight now in
  dict_get "conversations" (get_dashboard_stats db' u now)
  = Some (total_conversations db (u_id u) + 1)
  ∧ dict_get "unreadAlerts" (get_dashboard_stats db' u now)
    = dict_get "unreadAlerts" (get_dashboard_stats db u now)
  ∧ dict_get "upcomingReminders" (get_dashboard_stats db' u now)
    = dict_get "upcomingReminders" (get_dashboard_stats db u now)
  ∧ (∀ c, i_contact_id i = Some c → dt_ge (i_timestamp i) t0 = true →
       ¬ seen_since db (u_id u) t0 c →
       dict_get "visitors" (get_dashboard_stats db' u now)
       = Some (visitors_today db (u_id u) t0 + 1))
  ∧ (i_contact_id i = None ∨ dt_ge (i_timestamp i) t0 = false
     ∨ (∃ c, i_contact_id i = Some c ∧ seen_since db (u_id u) t0 c) →
       dict_get "visitors" (get_dashboard_stats db' u now)
       = Some (visitors_today db (u_id u) t0)).
Proof.
  intros Hu. cbn zeta.
  split; [|split; [done|split; [done|split]]].
  - rewrite get_conversations, !conversations_count. f_equal.
    unfold own_interactions. cbn [add_interaction interactions].
    rewrite filter_cons_True by done. cbn [length]. lia.
  - intros c Hc Ht Hnew.
    rewrite get_visitors, !visitors_from_midnight, visitor_set_add by done.
    rewrite Ht, Hc. f_equal.
    rewrite size_union, size_singleton; [lia|].
    apply disjoint_singleton_l. by rewrite elem_of_visitor_set.
  - intros Hcase.
    rewrite get_visitors, !visitors_from_midnight, visitor_set_add by done.
    do 3 f_equal.
    destruct Hcase as [Hc|[Ht|(c & Hc & Hseen)]].
    + rewrite Hc. destruct (dt_ge _ _); by rewrite (left_id_L ∅ (∪)).
    + rewrite Ht. by rewrite (left_id_L ∅ (∪)).
    + rewrite Hc. destruct (dt_ge _ _); [|by rewrite (left_id_L ∅ (∪))].
      apply subseteq_union_1_L, singleton_subseteq_l.
      by apply elem_of_visitor_set.
Qed.

Lemma X4_one_more_interaction_witness :
  dict_get "visitors"
    (get_dashboard_stats
       (add_interaction (mkInteraction 6 1 (Some 99) (at_time 10 11 0)) db_scenario)
       user_a noon)
  = Some (visitors_today db_scenario 1 (replace_midnight noon) + 1)
  ∧ dict_get "visitors"
      (get_dashboard_stats
         (add_interaction (mkInteraction 7 1 None (at_time 10 11 0)) db_scenario)
         user_a noon)
    = Some (visitors_today db_scenario 1 (replace_midnight noon)).
Proof.
  split.
  - refine (proj1 (proj2 (proj2 (proj2
      (X4_one_more_interaction db_scenario user_a noon
         (mkInteraction 6 1 (Some 99) (at_time 10 11 0)) eq_refl))))
      99 eq_refl eq_refl _).
    intros (j & Hj & _ & Hc & _). revert Hj Hc.
    unfold db_scenario. cbn [interactions].
    rewrite !elem_of_cons, elem_of_nil.
    intros [->|[->|[->|[->|[->|[]]]]]] Hc; vm_compute in Hc; discriminate.
  - apply (X4_one_more_interaction db_scenario user_a noon
             (mkInteraction 7 1 None (at_time 10 11 0)) eq_refl).
    left. reflexivity.
Defined.

Lemma midnight_le_clock (now : datetime) :
  valid_time now → dt_ge now (replace_midnight now) = true.
Proof.
  intros (Hh & Hm & Hs & Hus).
  unfold dt_ge, dt_compare, dt_fields, replace_midnight. cbn.
  rewrite !Z.compare_refl.
  destruct (Z.compare_spec (hour now) 0) as [_|?|_]; [|lia|done].
  destruct (Z.compare_spec (minute now) 0) as [_|?|_]; [|lia|done].
  destruct (Z.compare_spec (second now) 0) as [_|?|_]; [|lia|done].
  destruct (Z.compare_spec (microsecond now) 0) as [_|?|_]; [done|lia|done].
Qed.

(** X5: for a clock reading whose time of day has no negative field,
    midnight of its date is not after it, so the window is never empty:
    an interaction of the user that has a contact and is stamped with
    the clock reading itself makes [visitors] at least 1. *)
Theorem X5_row_at_now_counts (db : Database) (u : User) (now : datetime)
    (i : Interaction) (c : Z) :
  valid_time now →
  i ∈ interactions db → i_user_id i = u_id u →
  i_contact_id i = Some c → i_timestamp i = now →
  dt_le (replace_midnight now) now = true
  ∧ ∃ v, dict_get "visitors" (get_dashboard_stats db u now) = Some v ∧ 1 ≤ v.
Proof.
  intros Hvalid Hin Hu Hc Ht.
  pose proof (midnight_le_clock now Hvalid) as Hge.
  split; [exact Hge|].
  eexists. split; [rewrite get_visitors, visitors_from_midnight; reflexivity|].
  assert (Hmem : c ∈ (list_to_set
       (omap i_contact_id
          (filter (λ j, i_user_id j = u_id u
                        ∧ dt_ge (i_timestamp j) (replace_midnight now))
                  (interactions db))) : gset Z)).
  { apply elem_of_visitor_set. exists i. by rewrite Ht. }
  assert (size (list_to_set
       (omap i_contact_id
          (filter (λ j, i_user_id j = u_id u
                        ∧ dt_ge (i_timestamp j) (replace_midnight now))
                  (interactions db))) : gset Z) ≠ 0%nat); [|lia].
  apply size_non_empty_iff. set_solver.
Qed.

Lemma X5_row_at_now_counts_witness :
  ∃ v, dict_get "visitors"
         (get_dashboard_stats
            (add_interaction (mkInteraction 9 1 (Some 5) noon) db_future)
            user_a noon) = Some v
       ∧ 1 ≤ v.
Proof.
  apply (X5_row_at_now_counts
           (add_interaction (mkInteraction 9 1 (Some 5) noon) db_future)
           user_a noon (mkInteraction 9 1 (Some 5) noon) 5).
  - repeat split; vm_compute; discriminate.
  - cbn. by left.
  - reflexivity.
  - reflexivity.
  - reflexivity.
Defined.

(** X6: the diagnostic trace shows interactions of the requesting user
    only, each stamped at or after midnight, and shows every such
    interaction; the total it announces is the number of interactions it
    lists, and the results it logs are the ones returned. *)
Theorem X6_trace_shows_own_rows (db : Database) (u : User) (now : datetime) :
  (∀ id c ts,
     LogInteraction id c ts ∈ dashboard_log db u now
     ↔ ∃ i, i ∈ interactions db ∧ i_user_id i = u_id u
            ∧ dt_ge (i_timestamp i) (replace_midnight now) = true
            ∧ i_id i = id ∧ i_contact_id i = c ∧ i_timestamp i = ts)
  ∧ (∀ n, LogTotal n ∈ dashboard_log db u now →
       n = length (filter interaction_line (dashboard_log db u now)))
  ∧ (∀ v c a r, LogResults v c a r ∈ dashboard_log db u now →
       get_dashboard_stats db u now
       = [ ("visitors"%string, v); ("conversations"%string, c);
           ("unreadAlerts"%string, a); ("upcomingReminders"%string, r) ]).
Proof.
  unfold dashboard_log. split; [|split].
  - intros id c ts.
    rewrite !elem_of_app, list_elem_of_fmap, !elem_of_cons, !elem_of_nil.
    unfold all_interactions_today. split.
    + intros [[?|[?|[?|[]]]]|[(i & [= -> -> ->] & Hi)|[?|[]]]]; try done.
      apply list_elem_of_filter in Hi as [[Hu Ht] Hin].
      exists i. apply Is_true_true in Ht. done.
    + intros (i & Hin & Hu & Ht & <- & <- & <-). right. left.
      exists i. split; [done|]. apply list_elem_of_filter.
      split; [|done]. split; [done|]. by apply Is_true_true.
  - intros n.
    rewrite !elem_of_app, list_elem_of_fmap, !elem_of_cons, !elem_of_nil.
    intros [[?|[?|[[= ->]|[]]]]|[(i & ? & _)|[?|[]]]]; try done.
    rewrite !filter_app. cbn [filter list_filter].
    rewrite !decide_False by (cbn; tauto). cbn [app].
    rewrite app_nil_r.
    induction (all_interactions_today db (u_id u) (replace_midnight now))
      as [|i l IH]; [done|].
    cbn [fmap list_fmap]. rewrite filter_cons_True by done. cbn. by rewrite <- IH.
  - intros v c a r.
    rewrite !elem_of_app, list_elem_of_fmap, !elem_of_cons, !elem_of_nil.
    intros [[?|[?|[?|[]]]]|[(i & ? & _)|[[= -> -> -> ->]|[]]]]; done.
Qed.

Lemma X6_trace_shows_own_rows_witness :
  ∃ i, i ∈ interactions db_b_alerts ∧ i_user_id i = 1 ∧ i_id i = 1.
Proof.
  destruct (proj1 (proj1 (X6_trace_shows_own_rows db_b_alerts user_a noon)
                     1 (Some 10) (at_time 10 8 0)))
    as (i & Hin & Hu & _ & Hid & _).
  - vm_compute. right. right. right. left.
  - exists i. split; [exact Hin|]. split; [exact Hu|exact Hid].
Defined.

End StatsMore.

(* ===================================================================== *)
(** * Further properties of the migration script                         *)
(* ===================================================================== *)

Module MigrationMore.
Import Py Db Migration MigrationSpec MoreSpec MigrationProofs.




Lemma failed_shape (sch : Schema) (e : string) (calls : list Event) :
  Forall (λ ev, ∃ c, ev = EvCall c) calls →
  session_shape (events (failed sch e calls))
  ∧ EvRollback ∈ events (failed sch e calls).
Proof.
  intros Hcalls.
  assert (Hno : ∀ ev, ev ∈ calls → ev ≠ EvOpen ∧ ev ≠ EvClose).
  { intros ev Hin. rewrite Forall_forall in Hcalls.
    by destruct (Hcalls _ Hin) as (c & ->). }
  split.
  - exists [EvPrint "Database Migration: Remove Mood Column"],
      (EvPrint "Removing mood column from interactions table..."
         :: calls ++ [EvPrint ("Error removing mood column: " +:+ e); EvRollback]),
      [].
    split; [|split; [|split]].
    + unfold events, failed. cbn. by rewrite <- !app_assoc.
    + intros ev. rewrite app_nil_r, list_elem_of_singleton. intros ->. cbn. tauto.
    + rewrite not_elem_of_cons, not_elem_of_app, !not_elem_of_cons.
      split; [done|]. split; [|split; [done|split; [done|apply not_elem_of_nil]]].
      intros Hin. by destruct (Hno _ Hin).
    + rewrite not_elem_of_cons, not_elem_of_app, !not_elem_of_cons.
      split; [done|]. split; [|split; [done|split; [done|apply not_elem_of_nil]]].
      intros Hin. by destruct (Hno _ Hin).
  - unfold events, failed. cbn [snd trace].
    rewrite !elem_of_app, !elem_of_cons. tauto.
Qed.

Lemma finished_shape (sch : Schema) (steps : list Event) :
  Forall (λ ev, (∃ c, ev = EvCall c) ∨ ∃ msg, ev = EvPrint msg) steps →
  session_shape (events (finished sch steps))
  ∧ EvRollback ∉ events (finished sch steps).
Proof.
  intros Hsteps.
  assert (Hno : ∀ ev, ev ∈ steps → ev ≠ EvOpen ∧ ev ≠ EvClose ∧ ev ≠ EvRollback).
  { intros ev Hin. rewrite Forall_forall in Hsteps.
    destruct (Hsteps _ Hin) as [(c & ->)|(msg & ->)]; done. }
  split.
  - exists [EvPrint "Database Migration: Remove Mood Column"],
      (EvPrint "Removing mood column from interactions table..." :: steps),
      [EvPrint "Migration completed successfully!"].
    split; [|split; [|split]].
    + unfold events, finished. cbn. reflexivity.
    + intros ev. cbn. rewrite !elem_of_cons, elem_of_nil.
      intros [->|[->|[]]]; cbn; tauto.
    + rewrite not_elem_of_cons. split; [done|]. intros Hin.
      by destruct (Hno _ Hin) as (? & _).
    + rewrite not_elem_of_cons. split; [done|]. intros Hin.
      by destruct (Hno _ Hin) as (_ & ? & _).
  - unfold events, finished. cbn [snd trace].
    rewrite !elem_of_app, !elem_of_cons, !elem_of_nil.
    intros [[?|[?|[?|[]]]]|[Hin|[?|[?|[]]]]]; try done.
    by destruct (Hno _ Hin) as (_ & _ & ?).
Qed.

Lemma open_in_shape (tr : list Event) : session_shape tr → EvOpen ∈ tr.
Proof. intros (b & d & a & -> & _). set_solver. Qed.

(** X8: the session is opened exactly when the answer is affirmative, and
    then exactly once; whatever fails, it is closed again before the
    script ends, everything done on it lies between the opening and the
    closing, and nothing but printing comes before or after. A rollback
    happens exactly in the runs that end in an exception. *)
Theorem X8_session_always_closed (F : Faults) (response : string) (sch : Schema) :
  pending (run F response sch).2 = None
  ∧ (EvOpen ∈ events (run F response sch) ↔ affirmative response)
  ∧ (affirmative response → session_shape (events (run F response sch)))
  ∧ (EvRollback ∈ events (run F response sch)
     ↔ ∃ e, outcome (run F response sch) = Raise e).
Proof.
  destruct (decide (affirmative response)) as [Hyes|Hno].
  - rewrite (run_confirmed _ _ _ Hyes).
    assert (Hfailed : ∀ e calls,
      Forall (λ ev, ∃ c, ev = EvCall c) calls →
      pending (failed sch e calls).2 = None
      ∧ (EvOpen ∈ events (failed sch e calls) ↔ affirmative response)
      ∧ (affirmative response → session_shape (events (failed sch e calls)))
      ∧ (EvRollback ∈ events (failed sch e calls)
         ↔ ∃ e', outcome (failed sch e calls) = Raise e')).
    { intros e calls Hcalls.
      destruct (failed_shape sch e calls Hcalls) as [Hshape Hrb].
      split; [done|]. split; [|split; [done|]].
      - split; [done|]. intros _. by apply open_in_shape.
      - split; [intros _; by exists e|done]. }
    assert (Hfinished : ∀ sch' steps,
      Forall (λ ev, (∃ c, ev = EvCall c) ∨ ∃ msg, ev = EvPrint msg) steps →
      pending (finished sch' steps).2 = None
      ∧ (EvOpen ∈ events (finished sch' steps) ↔ affirmative response)
      ∧ (affirmative response → session_shape (events (finished sch' steps)))
      ∧ (EvRollback ∈ events (finished sch' steps)
         ↔ ∃ e', outcome (finished sch' steps) = Raise e')).
    { intros sch' steps Hsteps.
      destruct (finished_shape sch' steps Hsteps) as [Hshape Hrb].
      split; [done|]. split; [|split; [done|]].
      - split; [done|]. intros _. by apply open_in_shape.
      - split; [done|]. by intros (e' & ?). }
    run_cases F sch;
      first [ apply Hfailed | apply Hfinished ];
      repeat (apply Forall_cons; split; [eauto|]); by apply Forall_nil.
  - rewrite (run_cancelled _ _ _ Hno). split; [done|]. split; [|split; [done|]].
    + unfold events. cbn. rewrite !elem_of_cons, elem_of_nil. naive_solver.
    + unfold events, outcome. cbn. rewrite !elem_of_cons, elem_of_nil.
      naive_solver.
Qed.

Lemma X8_session_always_closed_witness :
  session_shape (events (run commit_fails "y" sch_with_mood)).
Proof.
  apply (X8_session_always_closed commit_fails "y" sch_with_mood).
  reflexivity.
Defined.

(** X9: the [ALTER] is executed only in a confirmed run, after the query
    has run and found the column in some namespace, and the commit only
    after the [ALTER] has succeeded, on a table that has the column; the
    stored schema changes only in a run that commits and ends normally.
    So on a table without the column the schema stays as it is under
    every answer and every failure. *)
Theorem X9_alter_only_when_present (F : Faults) (response : string) (sch : Schema) :
  (EvCall CallAlter ∈ events (run F response sch) →
     affirmative response ∧ mood_anywhere sch
     ∧ F CallSelect = None ∧ F CallFetch = None)
  ∧ (EvCall CallCommit ∈ events (run F response sch) →
       EvCall CallAlter ∈ events (run F response sch)
       ∧ F CallAlter = None ∧ ¬ lacks_mood sch)
  ∧ (final_schema (run F response sch) ≠ sch →
       outcome (run F response sch) = Ok tt
       ∧ EvCall CallCommit ∈ events (run F response sch))
  ∧ (lacks_mood sch → final_schema (run F response sch) = sch).
Proof.
  destruct (decide (affirmative response)) as [Hyes|Hno].
  - rewrite (run_confirmed _ _ _ Hyes). split; [|split; [|split]].
    + run_cases F sch; intros Hc; calls_in Hc;
        apply fetchone_select in Hrow; auto.
    + run_cases F sch; intros Hc; calls_in Hc;
        rewrite ?events_failed, ?events_finished;
        (split; [set_solver|split; [done|]]);
        intros [e' He']%drop_Raise; congruence.
    + run_cases F sch; rewrite ?final_finished; intros Hne; try done.
      split; [done|]. rewrite events_finished. set_solver.
    + intros [e' He']%drop_Raise.
      run_cases F sch; rewrite ?final_finished; try done; congruence.
  - rewrite (run_cancelled _ _ _ Hno). unfold events, final_schema.
    cbn [snd trace stored]. rewrite !elem_of_cons, !elem_of_nil.
    split; [intros [?|[?|[]]]; done|].
    split; [intros [?|[?|[]]]; done|].
    split; [intros Hne; by destruct Hne|done].
Qed.

Lemma X9_alter_only_when_present_witness :
  final_schema (run commit_fails "yes" sch_without_mood) = sch_without_mood.
Proof.
  apply (X9_alter_only_when_present commit_fails "yes" sch_without_mood).
  intros cols Hcols. vm_compute in Hcols. injection Hcols as <-.
  apply (bool_decide_unpack _). vm_compute. exact I.
Defined.

(** ** The confirmation *)

Lemma lower_char_y (c : ascii) :
  lower_char c = "y"%char ↔ c = "y"%char ∨ c = "Y"%char.
Proof.
  destruct c as [[] [] [] [] [] [] [] []]; vm_compute;
    split; intros H; try discriminate H; auto;
    destruct H as [H|H]; discriminate H.
Qed.

Lemma lower_char_e (c : ascii) :
  lower_char c = "e"%char ↔ c = "e"%char ∨ c = "E"%char.
Proof.
  destruct c as [[] [] [] [] [] [] [] []]; vm_compute;
    split; intros H; try discriminate H; auto;
    destruct H as [H|H]; discriminate H.
Qed.

Lemma lower_char_s (c : ascii) :
  lower_char c = "s"%char ↔ c = "s"%char ∨ c = "S"%char.
Proof.
  destruct c as [[] [] [] [] [] [] [] []]; vm_compute;
    split; intros H; try discriminate H; auto;
    destruct H as [H|H]; discriminate H.
Qed.

Lemma str_in_two (x a b : string) :
  str_in x [a; b] = true ↔ x = a ∨ x = b.
Proof.
  unfold str_in. cbn. rewrite orb_false_r, orb_true_iff, !String.eqb_eq. done.
Qed.

(** X10: the script proceeds on exactly ten answers: [y] and [yes] in
    any mix of upper and lower case. Anything else, such as an answer
    with a blank before or after it, cancels the migration. *)
Theorem X10_affirmative_answers (response : string) :
  affirmative response ↔ response ∈ affirmative_answers.
Proof.
  unfold affirmative. rewrite str_in_two. split.
  - intros [Hyes|Hy].
    + destruct response as [|c1 [|c2 [|c3 [|c4 r]]]]; try discriminate Hyes.
      cbn in Hyes. injection Hyes as H1 H2 H3.
      apply lower_char_y in H1. apply lower_char_e in H2.
      apply lower_char_s in H3.
      destruct H1 as [-> | ->], H2 as [-> | ->], H3 as [-> | ->];
        apply (bool_decide_unpack _); vm_compute; exact I.
    + destruct response as [|c1 [|c2 r]]; try discriminate Hy.
      cbn in Hy. injection Hy as H1. apply lower_char_y in H1.
      destruct H1 as [-> | ->]; apply (bool_decide_unpack _); vm_compute; exact I.
  - unfold affirmative_answers. rewrite !elem_of_cons, elem_of_nil.
    intros H. repeat (destruct H as [->|H]; [vm_compute; auto|]). destruct H.
Qed.

Lemma X10_affirmative_answers_witness :
  affirmative "yEs" ∧ ¬ affirmative " yes" ∧ ¬ affirmative "yes " ∧ ¬ affirmative "ok".
Proof.
  split; [|split; [|split]].
  - apply (proj2 (X10_affirmative_answers "yEs")).
    apply (bool_decide_unpack _). vm_compute. exact I.
  - intros H. apply (proj1 (X10_affirmative_answers " yes")) in H.
    apply (bool_decide_pack _) in H. vm_compute in H. exact H.
  - intros H. apply (proj1 (X10_affirmative_answers "yes ")) in H.
    apply (bool_decide_pack _) in H. vm_compute in H. exact H.
  - intros H. apply (proj1 (X10_affirmative_answers "ok")) in H.
    apply (bool_decide_pack _) in H. vm_compute in H. exact H.
Defined.

(** Without a failure from outside, a confirmed run is this. *)
Lemma run_no_faults (response : string) (sch : Schema) :
  affirmative response →
  run no_faults response sch
  = if bool_decide (is_Some (fetchone (select_mood_column sch))) then
      match drop_mood_column sch with
      | Raise e =>
          failed sch e [EvCall CallSelect; EvCall CallFetch; EvCall CallAlter]
      | Ok sch' =>
          finished sch'
            [EvCall CallSelect; EvCall CallFetch; EvCall CallAlter;
             EvCall CallCommit;
             EvPrint "Successfully removed mood column from interactions table"]
      end
    else
      finished sch
        [EvCall CallSelect; EvCall CallFetch;
         EvPrint "Mood column does not exist (already removed or never existed)"].
Proof. intros Hyes. by rewrite (run_confirmed _ _ _ Hyes). Qed.

(** On a table without the column the query finds a row exactly when
    another namespace has the column. *)
Lemma lacks_anywhere (sch : Schema) :
  lacks_mood sch → (mood_anywhere sch ↔ mood_elsewhere sch).
Proof. rewrite lacks_not_holds. unfold mood_anywhere. tauto. Qed.

(** X20: a confirmed run followed by a second one, no call failing from
    outside. The first run always leaves the table [interactions]
    without the column, and the second run leaves the schema as the
    first left it. When no other namespace has the column, both runs end
    normally and the second executes the query and nothing else on the
    database. When another namespace has it, the second run executes
    the [ALTER] on the table without the column and ends with an
    exception. *)
Theorem X20_second_run (response : string) (sch : Schema) :
  affirmative response →
  let once := run no_faults response sch in
  let twice := run no_faults response (final_schema once) in
  lacks_mood (final_schema once)
  ∧ final_schema twice = final_schema once
  ∧ (¬ mood_elsewhere sch →
       outcome once = Ok tt
       ∧ outcome twice = Ok tt
       ∧ ∀ c, EvCall c ∈ events twice → c = CallSelect ∨ c = CallFetch)
  ∧ (mood_elsewhere sch →
       EvCall CallAlter ∈ events twice
       ∧ ∃ e, outcome twice = Raise e).
Proof.
  intros Hyes. cbn zeta.
  assert (Hsecond : ∀ sch1, lacks_mood sch1 → elsewhere sch1 = elsewhere sch →
    final_schema (run no_faults response sch1) = sch1
    ∧ (¬ mood_elsewhere sch →
         outcome (run no_faults response sch1) = Ok tt
         ∧ ∀ c, EvCall c ∈ events (run no_faults response sch1) →
             c = CallSelect ∨ c = CallFetch)
    ∧ (mood_elsewhere sch →
         EvCall CallAlter ∈ events (run no_faults response sch1)
         ∧ ∃ e, outcome (run no_faults response sch1) = Raise e)).
  { intros sch1 Hlacks Helse.
    assert (Hany : mood_anywhere sch1 ↔ mood_elsewhere sch).
    { rewrite (lacks_anywhere _ Hlacks). unfold mood_elsewhere. by rewrite Helse. }
    rewrite (run_no_faults _ _ Hyes). case_bool_decide as Hrow.
    - apply fetchone_select, Hany in Hrow.
      destruct (proj1 (drop_Raise sch1) Hlacks) as [e ->].
      split; [done|]. split; [done|]. intros _. split.
      + apply events_failed. set_solver.
      + by exists e.
    - apply fetchone_select_None in Hrow. rewrite Hany in Hrow.
      split; [done|]. split; [|done]. intros _. split; [done|].
      intros c Hc. calls_in Hc; auto. }
  rewrite (run_no_faults _ _ Hyes). case_bool_decide as Hrow.
  - destruct (drop_mood_column sch) as [sch'|e] eqn:Hdrop.
    + rewrite final_finished, outcome_finished.
      pose proof (dropped_lacks_mood _ _ Hdrop) as Hlacks.
      destruct (Hsecond sch' Hlacks (dropped_elsewhere _ _ Hdrop))
        as (Hfinal & Hnone & Hsome).
      split; [done|]. split; [done|]. split; [|done].
      intros Hno. by destruct (Hnone Hno).
    + assert (Hlacks : lacks_mood sch) by (apply drop_Raise; by exists e).
      assert (Helse : mood_elsewhere sch).
      { by apply (lacks_anywhere _ Hlacks), fetchone_select. }
      change (final_schema (failed sch e _)) with sch.
      destruct (Hsecond sch Hlacks eq_refl) as (Hfinal & _ & Hsome).
      split; [done|]. split; [done|]. split; [done|done].
  - rewrite final_finished, outcome_finished.
    apply fetchone_select_None in Hrow.
    pose proof (nowhere_lacks _ Hrow) as Hlacks.
    destruct (Hsecond sch Hlacks eq_refl) as (Hfinal & Hnone & Hsome).
    split; [done|]. split; [done|]. split; [|done].
    intros Hno. by destruct (Hnone Hno).
Qed.

Lemma X20_second_run_witness :
  final_schema (run no_faults "yes" (final_schema (run no_faults "yes" sch_with_mood)))
  = sch_without_mood
  ∧ outcome (run no_faults "yes" (final_schema (run no_faults "yes" sch_with_mood)))
    = Ok tt
  ∧ ∃ e, outcome (run no_faults "yes"
                    (final_schema (run no_faults "yes" sch_both_mood))) = Raise e.
Proof.
  destruct (X20_second_run "yes" sch_with_mood eq_refl)
    as (_ & Hsame & Hnone & _).
  destruct (X20_second_run "yes" sch_both_mood eq_refl)
    as (_ & _ & _ & Hsome).
  split; [|split].
  - cbn zeta in Hsame. rewrite Hsame. by vm_compute.
  - apply Hnone. by intros ?%Exists_nil.
  - apply Hsome. apply Exists_cons_hd. exists
      ["id"; "user_id"; "contact_id"; "mood"; "timestamp"]%string.
    split; [by vm_compute|]. apply (bool_decide_unpack _). by vm_compute.
Defined.

End MigrationMore.

(* ===================================================================== *)
(** * Further properties of the audit script                             *)
(* ===================================================================== *)

Module VerifyMore.
Import Py Db Verify VerifySpec MoreSpec VerifyProofs RouteReport.

(** ** The schema check *)

(** The schema check on a reachable database, in full. *)
Lemma check_database_schema_reachable (env : Env) :
  env_faults env CallSelect = None →
  env_faults env CallFetch = None →
  outcome (check_database_schema env)
  = Ok (negb (bool_decide (is_Some (fetchone (select_mood_column (env_schema env))))))
  ∧ output (check_database_schema env)
    = [ (INFO, "1. Checking Database Schema..."%string);
        if bool_decide (is_Some (fetchone (select_mood_column (env_schema env))))
        then (FAIL, "mood column still exists in database"%string)
        else (PASS, "mood column removed from database"%string) ].
Proof.
  intros Hs Hf.
  unfold outcome, output, check_database_schema, schema_body, db_call.
  rewrite Hs, Hf.
  unfold mbind, M_bind, try_finally, try_except, print, set_session, modify, mret,
    M_ret. cbn -[select_mood_column fetchone].
  by case_bool_decide.
Qed.

(** What a confirmed migration that ends normally leaves behind. *)
Lemma migrated_catalogue (F : Faults) (response : string) (sch : Schema) :
  MigrationSpec.affirmative response →
  MigrationSpec.outcome (Migration.run F response sch) = Ok tt →
  MigrationSpec.lacks_mood (MigrationSpec.final_schema (Migration.run F response sch))
  ∧ elsewhere (MigrationSpec.final_schema (Migration.run F response sch))
    = elsewhere sch.
Proof.
  intros Hyes. rewrite (MigrationProofs.run_confirmed _ _ _ Hyes).
  MigrationProofs.run_cases F sch; try done; intros _;
    rewrite MigrationProofs.final_finished.
  - split; [by eapply MigrationProofs.dropped_lacks_mood|].
    by eapply MigrationProofs.dropped_elsewhere.
  - split; [|done].
    by apply MigrationProofs.nowhere_lacks, MigrationProofs.fetchone_select_None.
Qed.

(** X11: on the schema left by a confirmed migration that ended
    normally, the schema check of a reachable database passes exactly
    when no namespace off the search path holds a table [interactions]
    with the column. If one does, the audit reports [FAIL] although the
    migration has succeeded: the migration drops the column of the table
    the name denotes, and the query of the audit names no namespace. *)
Theorem X11_check_after_migration (F : Faults) (response : string)
    (sch : Schema) (env : Env) :
  MigrationSpec.affirmative response →
  MigrationSpec.outcome (Migration.run F response sch) = Ok tt →
  env_schema env = MigrationSpec.final_schema (Migration.run F response sch) →
  env_faults env CallSelect = None →
  env_faults env CallFetch = None →
  (outcome (check_database_schema env) = Ok true
   ↔ ¬ MigrationSpec.mood_elsewhere sch)
  ∧ (¬ MigrationSpec.mood_elsewhere sch →
       output (check_database_schema env)
       = [ (INFO, "1. Checking Database Schema..."%string);
           (PASS, "mood column removed from database"%string) ])
  ∧ (MigrationSpec.mood_elsewhere sch →
       outcome (check_database_schema env) = Ok false
       ∧ output (check_database_schema env)
         = [ (INFO, "1. Checking Database Schema..."%string);
             (FAIL, "mood column still exists in database"%string) ]).
Proof.
  intros Hyes Hok Hsch Hs Hf.
  destruct (migrated_catalogue F response sch Hyes Hok) as [Hlacks Helse].
  rewrite <- Hsch in Hlacks, Helse.
  assert (Hrow : is_Some (fetchone (select_mood_column (env_schema env)))
                 ↔ MigrationSpec.mood_elsewhere sch).
  { rewrite MigrationProofs.fetchone_select.
    unfold MigrationSpec.mood_anywhere, MigrationSpec.mood_elsewhere.
    rewrite Helse. apply MigrationProofs.lacks_not_holds in Hlacks. tauto. }
  destruct (check_database_schema_reachable env Hs Hf) as [-> ->].
  case_bool_decide as Hdec; cbn [negb].
  - apply Hrow in Hdec. split; [|split; [tauto|done]].
    split; [done|tauto].
  - split; [|split; [done|]].
    + split; [|done]. intros _ He. by apply Hdec, Hrow.
    + intros He. destruct Hdec. by apply Hrow.
Qed.

Lemma X11_check_after_migration_witness :
  outcome (check_database_schema
             (env_on (MigrationSpec.final_schema
                        (Migration.run no_faults "yes" MigrationSpec.sch_with_mood))))
  = Ok true
  ∧ outcome (check_database_schema
               (env_on (MigrationSpec.final_schema
                          (Migration.run no_faults "yes" MigrationSpec.sch_both_mood))))
    = Ok false.
Proof.
  split.
  - apply (proj1 (X11_check_after_migration no_faults "yes"
             MigrationSpec.sch_with_mood
             (env_on (MigrationSpec.final_schema
                        (Migration.run no_faults "yes" MigrationSpec.sch_with_mood)))
             eq_refl eq_refl eq_refl eq_refl eq_refl)).
    intros H. by apply Exists_nil in H.
  - apply (proj2 (proj2 (X11_check_after_migration no_faults "yes"
             MigrationSpec.sch_both_mood
             (env_on (MigrationSpec.final_schema
                        (Migration.run no_faults "yes" MigrationSpec.sch_both_mood)))
             eq_refl eq_refl eq_refl eq_refl eq_refl))).
    apply Exists_cons. left.
    exists ["id"; "user_id"; "contact_id"; "mood"; "timestamp"]%string.
    split; [reflexivity|]. apply (bool_decide_unpack _). vm_compute. exact I.
Defined.

(** X12: while the column is still in the table, the schema check of a
    reachable database fails and says so, the summary marks it as
    failed, and the exit status is 1 whatever the other checks find. *)
Theorem X12_column_present_fails (env : Env) (cols : list string) :
  env_schema env !! "interactions"%string = Some cols →
  "mood"%string ∈ cols →
  env_faults env CallSelect = None →
  env_faults env CallFetch = None →
  outcome (check_database_schema env) = Ok false
  ∧ (FAIL, "mood column still exists in database"%string)
      ∈ output (check_database_schema env)
  ∧ (FAIL, "Database Schema"%string) ∈ report env
  ∧ exit_status env = Ok 1.
Proof.
  intros Hcols Hin Hs Hf.
  assert (Hrow : is_Some (fetchone (select_mood_column (env_schema env)))).
  { apply MigrationProofs.fetchone_select. left. by exists cols. }
  destruct (check_database_schema_reachable env Hs Hf) as [Hout Hprinted].
  rewrite bool_decide_eq_true_2 in Hout, Hprinted by done.
  cbn [negb] in Hout.
  split; [done|]. split; [rewrite Hprinted; set_solver|].
  destruct (check_database_schema_reports env) as (r1 & l1 & H1 & _).
  destruct (check_chromadb_metadata_prints env) as (r2 & l2 & H2 & _).
  destruct (check_model_definition_prints env) as (r3 & l3 & H3 & _).
  destruct (check_route_definitions_prints env) as (r4 & l4 & H4 & _).
  destruct (main_reports env _ _ _ _ _ _ _ _ H1 H2 H3 H4) as [_ Hmain].
  destruct (reports_outcome _ _ _ H1) as [Ho1 _].
  assert (r1 = false) as -> by congruence.
  destruct (reports_outcome _ _ _ Hmain) as [Hexit Hreport].
  split; [|exact Hexit].
  change (report env) with (output (main env)). rewrite Hreport.
  unfold summary_of, verdict_line. set_solver.
Qed.

Lemma X12_column_present_fails_witness :
  exit_status
    {| env_schema := MigrationSpec.sch_with_mood;
       env_faults := no_faults;
       env_collection := Ok tt;
       env_get := Ok None;
       env_model := Ok false;
       env_read := λ _, Ok "import os"%string |} = Ok 1.
Proof.
  eapply (X12_column_present_fails _
            ["id"; "user_id"; "contact_id"; "mood"; "timestamp"]%string);
    [reflexivity| |reflexivity|reflexivity].
  apply (bool_decide_unpack _). vm_compute. exact I.
Defined.

(** ** The store check *)

Lemma scan_metadatas_cases (ms : list Metadata) (st : State) :
  ((scan_metadatas ms st).1 = Ok true ∧ meets_key ms)
  ∨ ((scan_metadatas ms st).1 = Ok false ∧ Forall lacks_key ms)
  ∨ ((scan_metadatas ms st).1 = Raise none_type_error ∧ meets_missing_metadata ms).
Proof.
  induction ms as [|[keys|] ms IH].
  - right. left. split; [done|]. by apply Forall_nil.
  - cbn [scan_metadatas]. destruct (str_in "mood" keys) eqn:Hk.
    + left. split; [done|]. exists [], (Some keys), ms.
      split; [done|]. split; [by exists keys|by apply Forall_nil].
    + assert (Hl : lacks_key (Some keys)) by (by exists keys).
      destruct IH as [[-> Hm]|[[-> Hm]|[-> Hm]]].
      * left. split; [done|].
        destruct Hm as (before & m & after & -> & Hhas & Hbefore).
        exists (Some keys :: before), m, after.
        split; [done|]. split; [done|]. by apply Forall_cons.
      * right. left. split; [done|]. by apply Forall_cons.
      * right. right. split; [done|].
        destruct Hm as (before & after & -> & Hbefore).
        exists (Some keys :: before), after. split; [done|]. by apply Forall_cons.
  - right. right. split; [done|]. exists [], ms. split; [done|]. by apply Forall_nil.
Qed.

Lemma lacks_key_not_has (m : Metadata) : lacks_key m → ¬ has_key m.
Proof. intros (k & -> & Hk) (k' & [= <-] & Hk'). congruence. Qed.

(** In a list of metadata, what comes first among a record with the
    key, a record without metadata, and the end of the list is
    determined. *)
Lemma first_hit_unique (ms : list Metadata) :
  (meets_key ms → ¬ Forall lacks_key ms ∧ ¬ meets_missing_metadata ms)
  ∧ (meets_missing_metadata ms → ¬ Forall lacks_key ms).
Proof.
  induction ms as [|m ms [IH1 IH2]].
  - split.
    + intros (b & m & a & Hnil & _). by destruct b.
    + intros (b & a & Hnil & _). by destruct b.
  - split.
    + intros (b & m' & a & Heq & Hhas & Hb). destruct b as [|m0 b].
      * injection Heq as ? ?; subst m' a. split.
        -- intros [Hl _]%Forall_cons. by apply (lacks_key_not_has m).
        -- intros (b' & a' & Heq' & Hb'). destruct b' as [|m1 b'].
           ++ injection Heq' as ? ?; subst m.
              by destruct Hhas as (? & ? & _).
           ++ injection Heq' as ? ?; subst m1.
              apply Forall_cons in Hb' as [Hl _].
              by apply (lacks_key_not_has m).
      * injection Heq as ? ?; subst m0 ms. apply Forall_cons in Hb as [Hl Hb].
        destruct IH1 as [Hn1 Hn2]; [by exists b, m', a|]. split.
        -- by intros [_ ?]%Forall_cons.
        -- intros (b' & a' & Heq' & Hb'). destruct b' as [|m1 b'].
           ++ injection Heq' as ? ?; subst m.
              by destruct Hl as (? & ? & _).
           ++ injection Heq' as ? Heq'; subst m1.
              apply Forall_cons in Hb' as [_ Hb'].
              apply Hn2. by exists b', a'.
    + intros (b & a & Heq & Hb). destruct b as [|m0 b].
      * injection Heq as ? ?; subst m.
        intros [(? & ? & _) _]%Forall_cons. done.
      * injection Heq as ? ?; subst m0 ms. apply Forall_cons in Hb as [_ Hb].
        intros [_ ?]%Forall_cons. apply IH2; [by exists b, a|done].
Qed.

(** X13: the scan of the sampled metadata stops at the first record
    that has the key [mood] and at the first record without metadata,
    whichever comes first: it answers true when a record with the key
    comes first, raises a type error when a record without metadata
    comes first, and answers false when the list has neither. A record
    without metadata behind a record with the key is never looked at. *)
Theorem X13_scan_stops_at_first_hit (ms : list Metadata) :
  (outcome (scan_metadatas ms) = Ok true ↔ meets_key ms)
  ∧ (outcome (scan_metadatas ms) = Ok false ↔ Forall lacks_key ms)
  ∧ (∀ e, outcome (scan_metadatas ms) = Raise e
          ↔ meets_missing_metadata ms ∧ e = none_type_error)
  ∧ (∀ keys rest, str_in "mood" keys = true →
       outcome (scan_metadatas (Some keys :: None :: rest)) = Ok true).
Proof.
  unfold outcome.
  destruct (first_hit_unique ms) as [Hu1 Hu2].
  split; [|split; [|split]].
  - destruct (scan_metadatas_cases ms initial) as [[-> Hm]|[[-> Hm]|[-> Hm]]].
    + done.
    + split; [done|]. intros Hk. by destruct (Hu1 Hk).
    + split; [done|]. intros Hk. by destruct (Hu1 Hk).
  - destruct (scan_metadatas_cases ms initial) as [[-> Hm]|[[-> Hm]|[-> Hm]]].
    + split; [done|]. intros Hl. by destruct (Hu1 Hm).
    + done.
    + split; [done|]. intros Hl. by destruct (Hu2 Hm).
  - intros e.
    destruct (scan_metadatas_cases ms initial) as [[-> Hm]|[[-> Hm]|[-> Hm]]].
    + split; [done|]. intros [Hmiss _]. by destruct (Hu1 Hm).
    + split; [done|]. intros [Hmiss _]. by destruct (Hu2 Hmiss).
    + split; [by intros [= <-]|by intros [_ ->]].
  - intros keys rest Hk. cbn [scan_metadatas]. by rewrite Hk.
Qed.

Lemma X13_scan_stops_at_first_hit_witness :
  outcome (scan_metadatas [Some ["speaker"]; Some ["mood"]; None]%string) = Ok true
  ∧ outcome (scan_metadatas [Some ["speaker"]; None; Some ["mood"]]%string)
    = Raise none_type_error.
Proof.
  split.
  - apply (proj1 (X13_scan_stops_at_first_hit _)).
    exists [Some ["speaker"]]%string, (Some ["mood"]%string), [None].
    split; [reflexivity|]. split; [by exists ["mood"]%string|].
    apply Forall_cons. split; [by exists ["speaker"]%string|by apply Forall_nil].
  - apply (proj1 (proj2 (proj2 (X13_scan_stops_at_first_hit _)))).
    split; [|reflexivity].
    exists [Some ["speaker"]]%string, [Some ["mood"]]%string.
    split; [reflexivity|].
    apply Forall_cons. split; [by exists ["speaker"]%string|by apply Forall_nil].
Defined.

(** ** The textual check, file by file *)




(** X15: the report of the textual check is its heading, then for each
    listed file in turn an error if it cannot be read, a warning with at
    most three references if it has flagged lines and nothing otherwise,
    then the line [PASS] exactly when the check returns true. A file is
    named in a warning exactly when it has a flagged line, and a clean
    run prints the heading and [PASS] only. *)
Theorem X15_route_report (env : Env) :
  ∃ passed : bool,
    outcome (check_route_definitions env) = Ok passed
    ∧ output (check_route_definitions env)
      = (INFO, "4. Checking Route Definitions..."%string)
          :: (files_to_check ≫= file_lines env)
          ++ (if passed
              then [(PASS, "No mood references found in route files"%string)]
              else [])
    ∧ (passed = true ↔ ∀ f, f ∈ files_to_check → file_clean env f)
    ∧ (∀ f, f ∈ files_to_check →
         ((WARNING, found_refs f)
            ∈ output (check_route_definitions env)
          ↔ ∃ content, env_read env f = Ok content ∧ mood_refs content ≠ []))
    ∧ ((PASS, "No mood references found in route files"%string)
         ∈ output (check_route_definitions env) ↔ passed = true)
    ∧ (passed = true →
         output (check_route_definitions env)
         = [ (INFO, "4. Checking Route Definitions..."%string);
             (PASS, "No mood references found in route files"%string) ]).
Proof.
  destruct (prints_outcome _ _ _ (check_route_definitions_lines env)) as [Ho Hp].
  eexists. split; [exact Ho|]. split; [exact Hp|]. rewrite Hp.
  set (passed := forallb _ files_to_check).
  assert (Hpassed : passed = true ↔ ∀ f, f ∈ files_to_check → file_clean env f).
  { unfold passed. rewrite forallb_forall. split; intros H f Hf.
    - apply file_lines_nil. eapply bool_decide_eq_true_1, H.
      by apply list_elem_of_In.
    - apply bool_decide_eq_true_2, file_lines_nil, H. by apply list_elem_of_In. }
  assert (Hnone : ∀ sev msg, sev ≠ ERROR → sev ≠ WARNING → sev ≠ INFO →
            (sev, msg) ∉ files_to_check ≫= file_lines env).
  { intros sev msg He Hw Hi Hin.
    apply list_elem_of_bind in Hin as (f & Hin & _).
    unfold file_lines in Hin. destruct (env_read env f) as [content|e].
    - destruct (mood_refs content); [by apply elem_of_nil in Hin|].
      apply elem_of_cons in Hin as [[= -> _]|Hin]; [done|].
      by apply list_elem_of_fmap in Hin as (? & [= -> _] & _).
    - by apply list_elem_of_singleton in Hin as [= -> _]. }
  split; [exact Hpassed|]. split; [|split].
  - intros f Hf. rewrite elem_of_cons, elem_of_app, list_elem_of_bind. split.
    + intros [[=]|[(f' & Hin & _)|Hin]].
      * by apply warning_in_file_lines in Hin as [_ ?].
      * destruct passed; [|by apply elem_of_nil in Hin].
        by apply list_elem_of_singleton in Hin.
    + intros Hrefs. right. left. exists f. split; [|done].
      by apply warning_in_file_lines.
  - rewrite elem_of_cons, elem_of_app. split.
    + intros [[=]|[Hin|Hin]]; [by apply Hnone in Hin|].
      destruct passed; [done|by apply elem_of_nil in Hin].
    + intros ->. right. right. by left.
  - intros Htrue.
    assert (Hnil : ∀ files, (∀ f, f ∈ files → file_clean env f) →
              files ≫= file_lines env = []).
    { induction files as [|f files IH]; intros Hclean; [done|].
      rewrite bind_cons.
      rewrite (proj2 (file_lines_nil env f)) by (apply Hclean; by left).
      apply IH. intros f' Hf'. apply Hclean. by right. }
    rewrite Htrue.
    exact (f_equal (λ l, _ :: l ++ _)
             (Hnil files_to_check (proj1 Hpassed Htrue))).
Qed.

Lemma X15_route_report_witness :
  (WARNING, "Found mood references in app/routes/asrRoutes.py:"%string)
    ∈ output (check_route_definitions env_quoted)
  ∧ output (check_route_definitions env_clean)
    = [ (INFO, "4. Checking Route Definitions..."%string);
        (PASS, "No mood references found in route files"%string) ].
Proof.
  split.
  - destruct (X15_route_report env_quoted) as (p & _ & _ & _ & Hw & _).
    apply (Hw "app/routes/asrRoutes.py"%string).
    + apply (bool_decide_unpack _). vm_compute. exact I.
    + eexists. split; [reflexivity|]. vm_compute. discriminate.
  - destruct (X15_route_report env_clean) as (p & Ho & _ & _ & _ & _ & Hc).
    apply Hc. vm_compute in Ho. by injection Ho as <-.
Defined.

End VerifyMore.

(* ===================================================================== *)
(** * Further properties of the text operations of the audit             *)
(* ===================================================================== *)

Module TextMore.
Import Py Verify VerifySpec MoreSpec TextualProofs.

(** ** Stripping *)

Lemma lstrip_split (s : string) :
  ∃ pre, s = pre +:+ lstrip s ∧ all_space pre.
Proof.
  induction s as [|c s (pre & Hs & Hpre)]; [by exists EmptyString|].
  cbn [lstrip]. destruct (is_space c) eqn:Hc.
  - exists (String c pre). rewrite append_cons, <- Hs. done.
  - by exists EmptyString.
Qed.

Lemma lstrip_first (s : string) (c : ascii) :
  first_char (lstrip s) = Some c → is_space c = false.
Proof.
  induction s as [|d s IH]; [done|]. cbn [lstrip].
  destruct (is_space d) eqn:Hd; [done|]. by intros [= <-].
Qed.

Lemma lstrip_id (s : string) :
  (∀ c, first_char s = Some c → is_space c = false) → lstrip s = s.
Proof.
  destruct s as [|c s]; [done|]. intros H. cbn. by rewrite (H c).
Qed.

Lemma all_space_lstrip (pre s : string) :
  all_space pre → lstrip (pre +:+ s) = lstrip s.
Proof.
  induction pre as [|c pre IH]; [done|]. intros [Hc Hpre].
  rewrite append_cons. cbn [lstrip]. rewrite Hc. by apply IH.
Qed.

Lemma rstrip_cons (c : ascii) (s : string) :
  rstrip (String c s)
  = match rstrip s with
    | EmptyString => if is_space c then EmptyString else String c EmptyString
    | t => String c t
    end.
Proof. reflexivity. Qed.

Lemma rstrip_split (s : string) :
  ∃ post, s = rstrip s +:+ post ∧ all_space post.
Proof.
  induction s as [|c s (post & Hs & Hpost)]; [by exists EmptyString|].
  rewrite rstrip_cons. destruct (rstrip s) as [|d t] eqn:Hr.
  - destruct (is_space c) eqn:Hc.
    + exists (String c post). rewrite append_nil_l in *. subst s.
      split; [done|]. by split.
    + exists post. rewrite append_cons, append_nil_l.
      rewrite append_nil_l in Hs. by subst s.
  - exists post. rewrite append_cons. by rewrite <- Hs.
Qed.

Lemma rstrip_last (s : string) (c : ascii) :
  last_char (rstrip s) = Some c → is_space c = false.
Proof.
  induction s as [|d s IH]; [done|]. rewrite rstrip_cons.
  destruct (rstrip s) as [|e t] eqn:Hr.
  - destruct (is_space d) eqn:Hd; [done|]. by intros [= <-].
  - intros H. apply IH. exact H.
Qed.

Lemma rstrip_first (s : string) (c : ascii) :
  first_char (rstrip s) = Some c ↔ first_char s = Some c ∧ rstrip s ≠ EmptyString.
Proof.
  destruct s as [|d s]; [naive_solver|]. rewrite rstrip_cons.
  destruct (rstrip s) as [|e t].
  - destruct (is_space d); cbn; naive_solver.
  - cbn. naive_solver.
Qed.

Lemma rstrip_nonblank (c : ascii) (s : string) :
  is_space c = false → rstrip (String c s) ≠ EmptyString.
Proof.
  intros Hc. rewrite rstrip_cons. rewrite Hc. by destruct (rstrip s).
Qed.

Lemma rstrip_id (s : string) :
  (∀ c, last_char s = Some c → is_space c = false) → rstrip s = s.
Proof.
  induction s as [|d s IH]; [done|]. intros H. rewrite rstrip_cons.
  destruct s as [|e s].
  - cbn. by rewrite (H d).
  - rewrite IH by (intros c Hc; by apply H). done.
Qed.

(** X16: a line counts as a comment exactly when its first character
    that is not white space is [#]. So a commented line is never
    flagged, however it is indented, and a line that has code before a
    trailing comment is flagged when the quoted token stands anywhere in
    it, the comment included. *)
Theorem X16_comment_by_first_character :
  (∀ line,
     comment_line line ↔ ∃ rest, lstrip line = String "#" rest)
  ∧ (∀ indent rest,
       all_space indent → flags_line (indent +:+ String "#" rest) = false)
  ∧ (∀ code c rest tail,
       lstrip code = String c rest → c ≠ "#"%char →
       quoted_token (code +:+ tail) →
       flags_line (code +:+ tail) = true).
Proof.
  assert (Hcomment : ∀ line,
            comment_line line ↔ ∃ rest, lstrip line = String "#" rest).
  { intros line. unfold comment_line, startswith, strip.
    rewrite prefix_spec. split.
    - intros [rest Hrest].
      assert (Hf : first_char (rstrip (lstrip line)) = Some "#"%char)
        by (by rewrite Hrest).
      apply rstrip_first in Hf as [Hf _].
      destruct (lstrip line) as [|c t]; [done|].
      injection Hf as ->. by exists t.
    - intros [rest Hrest]. rewrite Hrest.
      assert (Hf : first_char (rstrip (String "#" rest)) = Some "#"%char).
      { apply rstrip_first. split; [done|]. by apply rstrip_nonblank. }
      destruct (rstrip (String "#" rest)) as [|c t]; [done|].
      injection Hf as ->. by exists t. }
  split; [exact Hcomment|]. split.
  - intros indent rest Hindent.
    destruct (flags_line _) eqn:Hflag; [|done].
    apply flags_line_spec in Hflag as [_ Hnc]. exfalso. apply Hnc.
    apply Hcomment. exists rest. by rewrite all_space_lstrip.
  - intros code c rest tail Hcode Hc Hq. apply flags_line_spec.
    split; [done|]. intros (rest' & Hrest')%Hcomment.
    destruct (lstrip_split code) as (pre & Hpre & Hsp).
    rewrite Hpre, append_assoc, all_space_lstrip in Hrest' by done.
    rewrite Hcode, append_cons in Hrest'. cbn [lstrip] in Hrest'.
    assert (Hns : is_space c = false)
      by (apply (lstrip_first code); by rewrite Hcode).
    rewrite Hns in Hrest'. by injection Hrest' as ? _.
Qed.

Lemma X16_comment_by_first_character_witness :
  flags_line "    # old: data['mood']" = false
  ∧ flags_line "x = 1  # was data['mood']" = true.
Proof.
  split.
  - apply (proj1 (proj2 X16_comment_by_first_character) "    "%string
             " old: data['mood']"%string).
    vm_compute. tauto.
  - apply (proj2 (proj2 X16_comment_by_first_character)
             "x = 1"%string "x"%char " = 1"%string "  # was data['mood']"%string).
    + reflexivity.
    + discriminate.
    + right. apply contains_spec. reflexivity.
Defined.

(** X17: stripping removes white space at both ends and nothing else:
    the text is some white space, the stripped text, and some white
    space; the stripped text neither starts nor ends with white space;
    stripping twice is stripping once, and a text with no white space at
    its ends is left as it is. *)
Theorem X17_strip_both_ends (s : string) :
  (∃ pre post, s = pre +:+ strip s +:+ post ∧ all_space pre ∧ all_space post)
  ∧ trimmed (strip s)
  ∧ strip (strip s) = strip s
  ∧ (trimmed s → strip s = s).
Proof.
  assert (Htrim : trimmed (strip s)).
  { unfold strip. split.
    - intros c [Hf _]%rstrip_first. by apply (lstrip_first s).
    - apply rstrip_last. }
  assert (Hid : ∀ t, trimmed t → strip t = t).
  { intros t [Hf Hl]. unfold strip. rewrite (lstrip_id t Hf). by apply rstrip_id. }
  split; [|split; [done|split; [by apply Hid|apply Hid]]].
  destruct (lstrip_split s) as (pre & Hs & Hpre).
  destruct (rstrip_split (lstrip s)) as (post & Hl & Hpost).
  exists pre, post. split; [|done]. unfold strip. by rewrite <- Hl.
Qed.

Lemma X17_strip_both_ends_witness : strip "a = 1" = "a = 1"%string.
Proof.
  apply (X17_strip_both_ends "a = 1"). split; intros c [= <-]; reflexivity.
Defined.

(** ** Splitting into lines *)

Lemma append_nil_r (s : string) : s +:+ EmptyString = s.
Proof. induction s as [|c s IH]; [done|]. by rewrite append_cons, IH. Qed.

Lemma rev_app_append (a b : string) :
  String.rev_app a b = String.rev a +:+ b.
Proof.
  unfold String.rev. revert b. induction a as [|c a IH]; intros b; [done|].
  cbn [String.rev_app]. rewrite (IH (String c b)), (IH (String c EmptyString)).
  by rewrite append_assoc.
Qed.

Lemma rev_cons (c : ascii) (a : string) :
  String.rev (String c a) = String.rev a +:+ String c EmptyString.
Proof. unfold String.rev at 1. cbn [String.rev_app]. apply rev_app_append. Qed.

Lemma occurs_append (c : ascii) (a b : string) :
  occurs c (a +:+ b) ↔ occurs c a ∨ occurs c b.
Proof.
  induction a as [|d a IH]; [cbn; tauto|].
  rewrite append_cons. cbn [occurs]. rewrite IH. tauto.
Qed.

Lemma occurs_rev (c : ascii) (a : string) : occurs c (String.rev a) ↔ occurs c a.
Proof.
  induction a as [|d a IH]; [done|].
  rewrite rev_cons, occurs_append, IH. cbn. tauto.
Qed.

Lemma split_acc_nonempty (sep : ascii) (cur s : string) : split_acc sep cur s ≠ [].
Proof.
  revert cur. induction s as [|c s IH]; intros cur; [done|].
  cbn [split_acc]. destruct (Ascii.eqb c sep); [done|apply IH].
Qed.

Lemma join_cons (sep : ascii) (p : string) (rest : list string) :
  rest ≠ [] → join sep (p :: rest) = p +:+ String sep (join sep rest).
Proof. by destruct rest. Qed.

Lemma join_split_acc (sep : ascii) (cur s : string) :
  join sep (split_acc sep cur s) = String.rev cur +:+ s.
Proof.
  revert cur. induction s as [|c s IH]; intros cur.
  - cbn. by rewrite append_nil_r.
  - cbn [split_acc]. destruct (Ascii.eqb_spec c sep) as [->|Hne].
    + rewrite join_cons by apply split_acc_nonempty. by rewrite IH.
    + rewrite IH, rev_cons, append_assoc. done.
Qed.

Lemma length_split_acc (sep : ascii) (cur s : string) :
  length (split_acc sep cur s) = S (count_char sep s).
Proof.
  revert cur. induction s as [|c s IH]; intros cur; [done|].
  cbn [split_acc count_char]. destruct (Ascii.eqb c sep); cbn; by rewrite IH.
Qed.

Lemma split_acc_pieces (sep : ascii) (cur s piece : string) :
  ¬ occurs sep cur → piece ∈ split_acc sep cur s → ¬ occurs sep piece.
Proof.
  revert cur. induction s as [|c s IH]; intros cur Hcur.
  - cbn. intros ->%list_elem_of_singleton. by rewrite occurs_rev.
  - cbn [split_acc]. destruct (Ascii.eqb_spec c sep) as [->|Hne].
    + intros [->|Hin]%elem_of_cons; [by rewrite occurs_rev|].
      apply (IH EmptyString); [intros []|done].
    + apply IH. cbn. intros [?|?]; done.
Qed.

(** X18: splitting a text at a separator loses nothing: joining the
    pieces with the separator gives the text back; there is one piece
    more than there are separators, so always at least one; and no piece
    holds the separator. *)
Theorem X18_split_join (sep : ascii) (s : string) :
  join sep (split sep s) = s
  ∧ length (split sep s) = S (count_char sep s)
  ∧ (∀ piece, piece ∈ split sep s → ¬ occurs sep piece).
Proof.
  unfold split. split; [|split].
  - by rewrite join_split_acc.
  - apply length_split_acc.
  - intros piece. apply split_acc_pieces. intros [].
Qed.

Lemma X18_split_join_witness :
  ¬ occurs newline "b = 2".
Proof.
  apply (proj2 (proj2 (X18_split_join newline
    ("a = 1" +:+ String newline "b = 2"))) "b = 2"%string).
  apply (bool_decide_unpack _). vm_compute. exact I.
Defined.

(** ** The numbering of the references *)

Lemma collect_refs_bounds (i : nat) (lines : list string) (n : nat) (text : string) :
  (n, text) ∈ collect_refs i lines → (i ≤ n < i + length lines)%nat.
Proof.
  intros (line & Hle & Hlook & _)%collect_refs_spec.
  apply lookup_lt_Some in Hlook. lia.
Qed.

Lemma collect_refs_sorted (i : nat) (lines : list string) :
  StronglySorted lt (collect_refs i lines).*1.
Proof.
  revert i. induction lines as [|l lines IH]; intros i; [constructor|].
  cbn [collect_refs].
  assert (Hlater : Forall (lt i) (collect_refs (S i) lines).*1).
  { apply Forall_forall. intros n [[n' text] [-> Hin]]%list_elem_of_fmap.
    apply collect_refs_bounds in Hin. cbn. lia. }
  destruct (flags_line l); cbn; [|apply IH].
  constructor; [apply IH|exact Hlater].
Qed.

Lemma length_collect_refs (i : nat) (lines : list string) :
  (length (collect_refs i lines) ≤ length lines)%nat.
Proof.
  revert i. induction lines as [|l lines IH]; intros i; [done|].
  cbn [collect_refs]. rewrite length_app. specialize (IH (S i)).
  destruct (flags_line l); cbn; lia.
Qed.

(** X19: the references collected in a file come in the order of its
    lines, no line twice: their numbers increase strictly, they start at
    1 and do not exceed the number of lines, which is one more than the
    number of line breaks in the content. *)
Theorem X19_line_numbers (content : string) :
  StronglySorted lt (mood_refs content).*1
  ∧ (∀ n text, (n, text) ∈ mood_refs content →
       (1 ≤ n ≤ S (count_char newline content))%nat)
  ∧ (length (mood_refs content) ≤ S (count_char newline content))%nat.
Proof.
  unfold mood_refs. split; [apply collect_refs_sorted|]. split.
  - intros n text Hin. apply collect_refs_bounds in Hin.
    unfold split in Hin. rewrite length_split_acc in Hin. lia.
  - etrans; [apply length_collect_refs|].
    unfold split. by rewrite length_split_acc.
Qed.

Lemma X19_line_numbers_witness :
  (1 ≤ 2 ≤ S (count_char newline
                ("a = 1" +:+ String newline "b = data['mood']")))%nat.
Proof.
  apply (proj1 (proj2 (X19_line_numbers
    ("a = 1" +:+ String newline "b = data['mood']"))) 2%nat "b = data['mood']"%string).
  vm_compute. by left.
Defined.

End TextMore.
